(** * Shopping-assistant frontend: chat session controller and API client

    A shallow embedding of the TypeScript sources

      - [frontend/src/types/index.ts]      (the data model),
      - [frontend/src/utils/api.ts]        (the axios-based API client),
      - [frontend/src/pages/search.tsx]    (the search page's handlers),

    followed by the properties of the session / refinement state handling.

    Conventions of the embedding.

    - JavaScript strings are [string]; arrays are [list]; optional fields of
      an interface ([field?: T], or a field of a [Partial<...>]) are [option].
    - The JavaScript [number] type is a parameter (class [JsNumber]) that
      provides the rendering used by template literals; [Z] is the instance
      of the integral values.
    - Handlers are [async] functions with [try / catch / finally]: they are
      written in a small state-and-exception monad [M] over a [World] that
      holds the React state of the page, the sources of [uuidv4()] and
      [new Date()], the console, the log of requests handed to axios and the
      script of how axios settles them.
    - A React handler closes over the state of the render it was created in:
      every handler takes that render's [PageState] as its first argument,
      while the [set...] operations act on the live state of the [World]. *)

From Stdlib Require Import String Ascii List ZArith Lia Bool.
From Stdlib Require Import Numbers.DecimalString.
Import ListNotations.

Local Open Scope string_scope.
Local Open Scope list_scope.

Set Implicit Arguments.

(** ** JavaScript values used by the client *)

(** The [number] type of the sources, with the conversion that a template
    literal [`${n}`] applies to it. *)
Class JsNumber (number : Type) : Type :=
  { Number_toString : number -> string }.

(** Integral numbers print as their decimal digits, with a minus sign when
    negative (JavaScript does so for magnitudes below 10^21). *)
Definition Z_toString (z : Z) : string :=
  NilZero.string_of_int (Z.to_int z).

#[global] Instance JsNumber_Z : JsNumber Z :=
  { Number_toString := Z_toString }.

(** [`${xs.length}`]: an array length is a natural number. *)
Definition length_toString (n : nat) : string :=
  NilZero.string_of_uint (Nat.to_uint n).

(** Truthiness of a string: every string but the empty one. *)
Definition truthy (s : string) : bool :=
  match s with
  | EmptyString => false
  | String _ _ => true
  end.

(** A parsed JSON body, as [response.data] holds it when no interface is
    declared for it.  The own properties of an object are kept as an
    association list with distinct keys. *)
#[local] Unset Elimination Schemes.
Inductive JsValue : Type :=
| JsUndefined
| JsNull
| JsBoolean (b : bool)
| JsNumeric (digits : string)
| JsString (s : string)
| JsArray (items : list JsValue)
| JsObject (props : list (string * JsValue)).
#[local] Set Elimination Schemes.

(** What a handler can catch. *)
Inductive JsError : Type :=
| Error (message : string)
| TypeError (message : string)
| AxiosError (code : string) (response : option (Z * JsValue)).

Fixpoint own_property (key : string) (props : list (string * JsValue)) : JsValue :=
  match props with
  | [] => JsUndefined
  | (k, v) :: rest => if String.eqb k key then v else own_property key rest
  end.

(** [v.key]: reading a property of [undefined] or [null] throws a
    [TypeError]; a missing property reads as [undefined]. *)
Definition get_property (v : JsValue) (key : string) : JsError + JsValue :=
  match v with
  | JsUndefined | JsNull =>
      inl (TypeError ("Cannot read properties of undefined (reading '" ++ key ++ "')"))
  | JsObject props => inr (own_property key props)
  | _ => inr JsUndefined
  end.

(** [v === 'literal'] *)
Definition strict_equals_string (v : JsValue) (literal : string) : bool :=
  match v with
  | JsString s => String.eqb s literal
  | _ => false
  end.

(** ** types/index.ts *)

Module Product.
Section WithNumber.
Context {number : Type}.
Record t : Type := mk
      { title : string;
        price : string;
        image_url : string;
        product_url : string;
        purchases : number;
        good_reviews : string;
        bad_reviews : string;
        score : number;
        reasoning : string }.
End WithNumber.
Arguments t : clear implicits.
End Product.

Module SearchResponse.
Section WithNumber.
Context {number : Type}.
Record t : Type := mk
      { products : list (Product.t number);
        session_id : string;
        query_processed : string;
        suggestions : list string }.
End WithNumber.
Arguments t : clear implicits.
End SearchResponse.

Module PriceRange.
Section WithNumber.
Context {number : Type}.
    (** [{ min?: number; max?: number }] of a [SearchRequest]. *)
Record optional : Type := mk_optional
      { omin : option number;
        omax : option number }.
    (** [{ min: number; max: number }] of [RefinementOptions]. *)
Record t : Type := mk
      { min : number;
        max : number }.
    (** A value of the second interface used where the first is expected. *)
Definition widen (r : t) : optional :=
      {| omin := Some (min r); omax := Some (max r) |}.
End WithNumber.
Arguments t : clear implicits.
Arguments optional : clear implicits.
End PriceRange.

Module SearchRequest.
Section WithNumber.
Context {number : Type}.
Record t : Type := mk
      { query : string;
        session_id : option string;
        price_range : option (PriceRange.optional number);
        features_to_add : option (list string);
        features_to_remove : option (list string) }.
End WithNumber.
Arguments t : clear implicits.
End SearchRequest.

Inductive MessageType : Type := user | assistant.

Module ChatMessage.
Section WithNumber.
Context {number : Type}.
Record t : Type := mk
      { id : string;
        type : MessageType;
        content : string;
        timestamp : Z;
        products : option (list (Product.t number)) }.
End WithNumber.
Arguments t : clear implicits.
End ChatMessage.

Module RefinementOptions.
Section WithNumber.
Context {number : Type}.
    (** [Partial<RefinementOptions>]: every field may be missing. *)
Record partial : Type := mk
      { price_range : option (PriceRange.t number);
        features : option (list string);
        verified_reviews_only : option bool }.
    (** The literal [{}]. *)
Definition empty : partial :=
      {| price_range := None; features := None; verified_reviews_only := None |}.
End WithNumber.
Arguments partial : clear implicits.
End RefinementOptions.

(** ** The React state of the search page

    One field per [useState] of [SearchPage], with its initial value. *)

Module PageState.
Section WithNumber.
Context {number : Type}.
Record t : Type := mk
      { messages : list (ChatMessage.t number);
        products : list (Product.t number);
        isLoading : bool;
        sessionId : string;
        suggestions : list string;
        isRefinementOpen : bool;
        refinementOptions : RefinementOptions.partial number }.

Definition initial : t :=
      {| messages := [];
         products := [];
         isLoading := false;
         sessionId := EmptyString;
         suggestions := [];
         isRefinementOpen := false;
         refinementOptions := RefinementOptions.empty |}.

Definition with_messages (f : list (ChatMessage.t number) -> list (ChatMessage.t number)) (s : t) : t :=
      mk (f (messages s)) (products s) (isLoading s) (sessionId s)
         (suggestions s) (isRefinementOpen s) (refinementOptions s).
Definition with_products (v : list (Product.t number)) (s : t) : t :=
      mk (messages s) v (isLoading s) (sessionId s)
         (suggestions s) (isRefinementOpen s) (refinementOptions s).
Definition with_isLoading (v : bool) (s : t) : t :=
      mk (messages s) (products s) v (sessionId s)
         (suggestions s) (isRefinementOpen s) (refinementOptions s).
Definition with_sessionId (v : string) (s : t) : t :=
      mk (messages s) (products s) (isLoading s) v
         (suggestions s) (isRefinementOpen s) (refinementOptions s).
Definition with_suggestions (v : list string) (s : t) : t :=
      mk (messages s) (products s) (isLoading s) (sessionId s)
         v (isRefinementOpen s) (refinementOptions s).
Definition with_isRefinementOpen (v : bool) (s : t) : t :=
      mk (messages s) (products s) (isLoading s) (sessionId s)
         (suggestions s) v (refinementOptions s).
Definition with_refinementOptions (v : RefinementOptions.partial number) (s : t) : t :=
      mk (messages s) (products s) (isLoading s) (sessionId s)
         (suggestions s) (isRefinementOpen s) v.
End WithNumber.
Arguments t : clear implicits.
End PageState.

(** ** axios, as the client sees it

    [await api.post(url, body)] either yields a response object or throws.
    With the instance of api.ts (no [validateStatus] given, [timeout: 30000])
    axios throws an [AxiosError] when no response arrives in time, when the
    connection fails, and when the status is outside 200..299; in the last
    case the error carries the status and the parsed body. *)

Module AxiosResponse.
Record t (D : Type) : Type := mk
    { status : Z;
      data : D }.
End AxiosResponse.

Inductive Settled (D : Type) : Type :=
| Fulfilled (response : AxiosResponse.t D)
| Rejected (reason : JsError).
Arguments Rejected {D} reason.

Inductive Method : Type := GET | POST.

Module ApiCall.
Section WithNumber.
Context {number : Type}.
Record t : Type := mk
      { method : Method;
        url : string;
        body : option (SearchRequest.t number) }.
End WithNumber.
Arguments t : clear implicits.
End ApiCall.

(** ** The world a handler runs in *)

Module World.
Section WithNumber.
Context {number : Type}.
Record t : Type := mk
      { page : PageState.t number;
        (** [uuidv4()]: the tokens it will return, and how many were drawn *)
        uuid_source : nat -> string;
        uuids_drawn : nat;
        (** [new Date()]: the readings of the clock, and how many were taken *)
        clock : nat -> Z;
        clock_reads : nat;
        (** labels passed to [console.error] *)
        console : list string;
        (** requests handed to axios, oldest first, with how each settled *)
        network : list (ApiCall.t number * Settled (SearchResponse.t number + JsValue));
        (** how axios will settle the POST and GET requests to come; a request
            beyond the script gets no answer and is rejected on timeout *)
        post_script : list (Settled (SearchResponse.t number));
        get_script : list (Settled JsValue) }.

Definition with_page (f : PageState.t number -> PageState.t number) (w : t) : t :=
      mk (f (page w)) (uuid_source w) (uuids_drawn w) (clock w) (clock_reads w)
         (console w) (network w) (post_script w) (get_script w).
End WithNumber.
Arguments t : clear implicits.
End World.

(** The rejection of a request that got no answer within [timeout]. *)
Definition timeout_exceeded : JsError :=
  AxiosError "ECONNABORTED" None.

(** ** The monad of handlers: state and exceptions *)

Inductive Completion (A : Type) : Type :=
| Normal (value : A)
| Abrupt (thrown : JsError).
Arguments Abrupt {A} thrown.

Definition Async (number : Type) (A : Type) : Type :=
  World.t number -> Completion A * World.t number.

Section Monad.
Context {number : Type}.
Local Abbreviation M := (Async number) (only parsing).

Definition ret {A} (a : A) : M A :=
    fun w => (Normal a, w).

Definition bind {A B} (m : M A) (k : A -> M B) : M B :=
    fun w =>
      match m w with
      | (Normal a, w') => k a w'
      | (Abrupt e, w') => (Abrupt e, w')
      end.

Definition throw {A} (e : JsError) : M A :=
    fun w => (Abrupt e, w).

  (** [try { body } catch (error) { handler }] *)
Definition try_catch {A} (body : M A) (handler : JsError -> M A) : M A :=
    fun w =>
      match body w with
      | (Normal a, w') => (Normal a, w')
      | (Abrupt e, w') => handler e w'
      end.

  (** [try { body } finally { cleanup }] *)
Definition try_finally {A} (body : M A) (cleanup : M unit) : M A :=
    fun w =>
      match body w with
      | (c, w') =>
          match cleanup w' with
          | (Normal _, w'') => (c, w'')
          | (Abrupt e, w'') => (Abrupt e, w'')
          end
      end.

  (** An operation that may throw without touching the world. *)
Definition lift {A} (r : JsError + A) : M A :=
    match r with
    | inl e => throw e
    | inr a => ret a
    end.

Definition modify_page (f : PageState.t number -> PageState.t number) : M unit :=
    fun w => (Normal tt, World.with_page f w).

Definition uuidv4 : M string :=
    fun w =>
      (Normal (World.uuid_source w (World.uuids_drawn w)),
       World.mk (World.page w) (World.uuid_source w) (S (World.uuids_drawn w))
                (World.clock w) (World.clock_reads w) (World.console w)
                (World.network w) (World.post_script w) (World.get_script w)).

Definition new_Date : M Z :=
    fun w =>
      (Normal (World.clock w (World.clock_reads w)),
       World.mk (World.page w) (World.uuid_source w) (World.uuids_drawn w)
                (World.clock w) (S (World.clock_reads w)) (World.console w)
                (World.network w) (World.post_script w) (World.get_script w)).

Definition console_error (label : string) : M unit :=
    fun w =>
      (Normal tt,
       World.mk (World.page w) (World.uuid_source w) (World.uuids_drawn w)
                (World.clock w) (World.clock_reads w) (World.console w ++ [label])
                (World.network w) (World.post_script w) (World.get_script w)).
End Monad.

Declare Scope handler_scope.
Delimit Scope handler_scope with handler.
Notation "x <- c ;; k" := (bind c (fun x => k))
  (at level 61, c at next level, right associativity) : handler_scope.
Notation "c ;; k" := (bind c (fun _ => k))
  (at level 61, right associativity) : handler_scope.
Local Open Scope handler_scope.

(** ** utils/api.ts *)

Section Api.
Context {number : Type}.
Local Abbreviation M := (Async number) (only parsing).

(** [process.env.NEXT_PUBLIC_API_URL || 'http://localhost:8000'] *)
Definition API_BASE_URL (NEXT_PUBLIC_API_URL : option string) : string :=
  match NEXT_PUBLIC_API_URL with
  | Some configured => if truthy configured then configured else "http://localhost:8000"
  | None => "http://localhost:8000"
  end.

(** [timeout: 30000] of [axios.create] *)
Definition api_timeout : Z := 30000.

Definition settled_map {A B : Type} (f : A -> B) (s : Settled A) : Settled B :=
  match s with
  | Fulfilled r => Fulfilled (AxiosResponse.mk (AxiosResponse.status r) (f (AxiosResponse.data r)))
  | Rejected e => Rejected e
  end.

Definition next_settlement {D : Type} (script : list (Settled D)) : Settled D :=
  match script with
  | [] => Rejected timeout_exceeded
  | s :: _ => s
  end.

(** [await api.post(url, request)] *)
Definition api_post (url : string) (request : SearchRequest.t number)
  : M (AxiosResponse.t (SearchResponse.t number)) :=
  fun w =>
    let outcome := next_settlement (World.post_script w) in
    let w' :=
      World.mk (World.page w) (World.uuid_source w) (World.uuids_drawn w)
               (World.clock w) (World.clock_reads w) (World.console w)
               (World.network w ++
                  [(ApiCall.mk POST url (Some request), settled_map inl outcome)])
               (tl (World.post_script w)) (World.get_script w) in
    match outcome with
    | Fulfilled response => (Normal response, w')
    | Rejected reason => (Abrupt reason, w')
    end.

(** [await api.get(url)] *)
Definition api_get (url : string) : M (AxiosResponse.t JsValue) :=
  fun w =>
    let outcome := next_settlement (World.get_script w) in
    let w' :=
      World.mk (World.page w) (World.uuid_source w) (World.uuids_drawn w)
               (World.clock w) (World.clock_reads w) (World.console w)
               (World.network w ++
                  [(ApiCall.mk GET url None, settled_map inr outcome)])
               (World.post_script w) (tl (World.get_script w)) in
    match outcome with
    | Fulfilled response => (Normal response, w')
    | Rejected reason => (Abrupt reason, w')
    end.

Definition searchProducts (request : SearchRequest.t number) : M (SearchResponse.t number) :=
  try_catch
    (response <- api_post "/search" request ;;
     ret (AxiosResponse.data response))
    (fun error =>
       console_error "Search API error:" ;;
       throw (Error "Failed to search products")).

Definition refineSearch (request : SearchRequest.t number) : M (SearchResponse.t number) :=
  try_catch
    (response <- api_post "/refine" request ;;
     ret (AxiosResponse.data response))
    (fun error =>
       console_error "Refine API error:" ;;
       throw (Error "Failed to refine search")).

Definition healthCheck : M bool :=
  try_catch
    (response <- api_get "/health" ;;
     status <- lift (get_property (AxiosResponse.data response) "status") ;;
     ret (strict_equals_string status "healthy"))
    (fun error =>
       console_error "Health check failed:" ;;
       ret false).

End Api.

(** ** pages/search.tsx *)

Section SearchPage.
Context {number : Type} {numeric : JsNumber number}.
Local Abbreviation M := (Async number) (only parsing).

(** The setters returned by [useState]; [setMessages] is also used with an
    updater [prev => ...]. *)
Definition setMessages (update : list (ChatMessage.t number) -> list (ChatMessage.t number)) : M unit :=
  modify_page (PageState.with_messages update).
Definition setProducts (v : list (Product.t number)) : M unit :=
  modify_page (PageState.with_products v).
Definition setIsLoading (v : bool) : M unit :=
  modify_page (PageState.with_isLoading v).
Definition setSessionId (v : string) : M unit :=
  modify_page (PageState.with_sessionId v).
Definition setSuggestions (v : list string) : M unit :=
  modify_page (PageState.with_suggestions v).
Definition setIsRefinementOpen (v : bool) : M unit :=
  modify_page (PageState.with_isRefinementOpen v).
Definition setRefinementOptions (v : RefinementOptions.partial number) : M unit :=
  modify_page (PageState.with_refinementOptions v).

(** [{ id: uuidv4(), type, content, timestamp: new Date(), products }] *)
Definition new_message (type : MessageType) (content : string)
    (products : option (list (Product.t number))) : M (ChatMessage.t number) :=
  id <- uuidv4 ;;
  timestamp <- new_Date ;;
  ret (ChatMessage.mk id type content timestamp products).

(** The double-quote character of the template in [handleInitialSearch]. *)
Definition double_quote : string :=
  String (ascii_of_nat 34) EmptyString.

Definition handleInitialSearch (render : PageState.t number) (query : string) : M unit :=
  setIsLoading true ;;
  userMessage <- new_message user query None ;;
  setMessages (fun _ => [userMessage]) ;;
  try_finally
    (try_catch
       (response <- searchProducts (SearchRequest.mk query None None None None) ;;
        setProducts (SearchResponse.products response) ;;
        setSessionId (SearchResponse.session_id response) ;;
        setSuggestions (SearchResponse.suggestions response) ;;
        assistantMessage <-
          new_message assistant
            ("I found " ++ length_toString (length (SearchResponse.products response))
               ++ " great options for " ++ double_quote
               ++ SearchResponse.query_processed response ++ double_quote
               ++ ". Here are the top recommendations based on reviews, price, and features.")
            (Some (SearchResponse.products response)) ;;
        setMessages (fun prev => prev ++ [assistantMessage]))
       (fun error =>
          console_error "Search error:" ;;
          errorMessage <-
            new_message assistant
              "Sorry, I encountered an error while searching for products. Please try again."
              None ;;
          setMessages (fun prev => prev ++ [errorMessage])))
    (setIsLoading false).

Definition handleSendMessage (render : PageState.t number) (message : string) : M unit :=
  setIsLoading true ;;
  userMessage <- new_message user message None ;;
  setMessages (fun prev => prev ++ [userMessage]) ;;
  try_finally
    (try_catch
       (response <-
          (if truthy (PageState.sessionId render)
           then refineSearch
                  (SearchRequest.mk message (Some (PageState.sessionId render)) None None None)
           else searchProducts (SearchRequest.mk message None None None None)) ;;
        setProducts (SearchResponse.products response) ;;
        setSessionId (SearchResponse.session_id response) ;;
        setSuggestions (SearchResponse.suggestions response) ;;
        assistantMessage <-
          new_message assistant
            ("Updated search results! I found "
               ++ length_toString (length (SearchResponse.products response))
               ++ " products that match your refined criteria.")
            (Some (SearchResponse.products response)) ;;
        setMessages (fun prev => prev ++ [assistantMessage]))
       (fun error =>
          console_error "Search error:" ;;
          errorMessage <-
            new_message assistant
              "Sorry, I encountered an error. Please try rephrasing your request."
              None ;;
          setMessages (fun prev => prev ++ [errorMessage])))
    (setIsLoading false).

Definition handleSuggestionClick (render : PageState.t number) (suggestion : string) : M unit :=
  handleSendMessage render suggestion.

Definition handleRefineSearch : M unit :=
  setIsRefinementOpen true.

(** The refinement message of [handleApplyRefinements]: the variable
    [refinementQuery] after the three [if] statements. *)
Definition refinementQuery (options : RefinementOptions.partial number) : string :=
  let refinementQuery := "Refine my search" in
  let refinementQuery :=
    match RefinementOptions.price_range options with
    | Some price_range =>
        (refinementQuery ++ " with budget between $"
           ++ Number_toString (PriceRange.min price_range)
           ++ " and $" ++ Number_toString (PriceRange.max price_range))%string
    | None => refinementQuery
    end in
  let refinementQuery :=
    match RefinementOptions.features options with
    | Some features =>
        if (0 <? length features)%nat
        then (refinementQuery ++ " including features: "
                ++ String.concat ", " features)%string
        else refinementQuery
    | None => refinementQuery
    end in
  let refinementQuery :=
    match RefinementOptions.verified_reviews_only options with
    | Some true => (refinementQuery ++ " with verified reviews only")%string
    | _ => refinementQuery
    end in
  refinementQuery.

Definition handleApplyRefinements (render : PageState.t number)
    (options : RefinementOptions.partial number) : M unit :=
  setRefinementOptions options ;;
  setIsLoading true ;;
  let refinementQuery := refinementQuery options in
  userMessage <- new_message user refinementQuery None ;;
  setMessages (fun prev => prev ++ [userMessage]) ;;
  try_finally
    (try_catch
       (response <-
          refineSearch
            (SearchRequest.mk refinementQuery
               (Some (PageState.sessionId render))
               (option_map PriceRange.widen (RefinementOptions.price_range options))
               (RefinementOptions.features options)
               None) ;;
        setProducts (SearchResponse.products response) ;;
        setSuggestions (SearchResponse.suggestions response) ;;
        assistantMessage <-
          new_message assistant
            ("Perfect! I've refined your search based on your preferences. Here are "
               ++ length_toString (length (SearchResponse.products response))
               ++ " updated recommendations.")
            (Some (SearchResponse.products response)) ;;
        setMessages (fun prev => prev ++ [assistantMessage]))
       (fun error =>
          console_error "Refinement error:" ;;
          errorMessage <-
            new_message assistant
              "Sorry, I had trouble refining your search. Please try again."
              None ;;
          setMessages (fun prev => prev ++ [errorMessage])))
    (setIsLoading false).

(** [handleApply] of the refinement panel: the panel always passes its
    three fields, then closes itself. *)
Definition panel_options (priceRange : PriceRange.t number) (features : list string)
    (verifiedOnly : bool) : RefinementOptions.partial number :=
  RefinementOptions.mk (Some priceRange) (Some features) (Some verifiedOnly).

(** What can happen to a mounted page. *)
Inductive Action : Type :=
| InitialSearch (q : string)
| SendMessage (message : string)
| SuggestionClick (suggestion : string)
| RefineSearchClick
| ApplyRefinements (options : RefinementOptions.partial number).

(** An action runs its handler with the current render's state as closure.
    Here the handler runs to its end, its request settling before anything
    else happens on the page; handlers that overlap are played by [play]
    further down.  Applying
    refinements goes through [handleApply] of the panel, which calls
    [onApplyRefinements] and then [onClose]. *)
Definition dispatch (a : Action) : M unit :=
  fun w =>
    let render := World.page w in
    match a with
    | InitialSearch q => handleInitialSearch render q w
    | SendMessage message => handleSendMessage render message w
    | SuggestionClick suggestion => handleSuggestionClick render suggestion w
    | RefineSearchClick => handleRefineSearch w
    | ApplyRefinements options =>
        (handleApplyRefinements render options ;; setIsRefinementOpen false) w
    end.

Fixpoint run (actions : list Action) (w : World.t number) : World.t number :=
  match actions with
  | [] => w
  | a :: rest => run rest (snd (dispatch a w))
  end.

End SearchPage.

(** * Specification vocabulary *)

Section Vocabulary.
Context {number : Type} {numeric : JsNumber number}.

(** ** The refinement instruction, clause by clause

    The three clauses as the specification describes them: each one is
    present or omitted, and the instruction is the fixed opening followed by
    the clauses that are present, in the order price, features, verified
    reviews. *)

Definition price_clause (options : RefinementOptions.partial number) : option string :=
  match RefinementOptions.price_range options with
  | Some bounds =>
      Some (" with budget between $" ++ Number_toString (PriceRange.min bounds)
              ++ " and $" ++ Number_toString (PriceRange.max bounds))%string
  | None => None
  end.

Definition feature_clause (options : RefinementOptions.partial number) : option string :=
  match RefinementOptions.features options with
  | Some (first :: others) =>
      Some (" including features: " ++ String.concat ", " (first :: others))%string
  | Some [] | None => None
  end.

Definition verified_clause (options : RefinementOptions.partial number) : option string :=
  match RefinementOptions.verified_reviews_only options with
  | Some true => Some " with verified reviews only"
  | Some false | None => None
  end.

Fixpoint concat_present (clauses : list (option string)) : string :=
  match clauses with
  | [] => EmptyString
  | Some clause :: rest => (clause ++ concat_present rest)%string
  | None :: rest => concat_present rest
  end.

Definition instruction_spec (options : RefinementOptions.partial number) : string :=
  ("Refine my search"
     ++ concat_present [price_clause options; feature_clause options; verified_clause options])%string.

(** ** The health endpoint *)

(** The body of a settled [/health] request has a [status] field equal to
    the string [healthy]. *)
Definition reports_healthy (settled : Settled JsValue) : Prop :=
  exists response props,
    settled = Fulfilled response /\
    AxiosResponse.data response = JsObject props /\
    own_property "status" props = JsString "healthy".

(** ** Submissions and the transcript *)

(** The actions that submit something to the server; opening the panel
    does not. *)
Definition is_submission (a : Action (number := number)) : bool :=
  match a with
  | RefineSearchClick => false
  | _ => true
  end.

(** The text that a submission puts in its user message. *)
Definition submitted_text (a : Action (number := number)) : string :=
  match a with
  | InitialSearch q => q
  | SendMessage message => message
  | SuggestionClick suggestion => suggestion
  | ApplyRefinements options => refinementQuery options
  | RefineSearchClick => EmptyString
  end.

(** The transcript a submission starts from: the initial search starts a
    new one. *)
Definition transcript_before (a : Action (number := number)) (page : PageState.t number)
  : list (ChatMessage.t number) :=
  match a with
  | InitialSearch _ => []
  | _ => PageState.messages page
  end.

Definition apology_of (a : Action (number := number)) : string :=
  match a with
  | InitialSearch _ =>
      "Sorry, I encountered an error while searching for products. Please try again."
  | SendMessage _ | SuggestionClick _ =>
      "Sorry, I encountered an error. Please try rephrasing your request."
  | ApplyRefinements _ =>
      "Sorry, I had trouble refining your search. Please try again."
  | RefineSearchClick => EmptyString
  end.

(** The two messages of a turn that starts in world [w]: they take the next
    two tokens of [uuidv4] and the next two readings of the clock. *)
Definition user_message (w : World.t number) (text : string) : ChatMessage.t number :=
  ChatMessage.mk (World.uuid_source w (World.uuids_drawn w)) user text
                 (World.clock w (World.clock_reads w)) None.

Definition reply_message (w : World.t number) (text : string)
    (products : option (list (Product.t number))) : ChatMessage.t number :=
  ChatMessage.mk (World.uuid_source w (S (World.uuids_drawn w))) assistant text
                 (World.clock w (S (World.clock_reads w))) products.

(** A transcript made of [n] turns, each a user message followed by an
    assistant message. *)
Fixpoint turns_of (transcript : list (ChatMessage.t number)) : option nat :=
  match transcript with
  | [] => Some 0
  | question :: answer :: rest =>
      match ChatMessage.type question, ChatMessage.type answer with
      | user, assistant => option_map S (turns_of rest)
      | _, _ => None
      end
  | _ => None
  end.

(** ** The life of a page

    The page is mounted with the [q] parameter of its URL; the effect on
    [q] runs the initial search when [q] is a non-empty string; after that
    the user takes turns in the chat and in the refinement panel. *)

Inductive QueryParam : Type :=
| Missing
| Single (value : string)
| Repeated (values : list string).

Inductive Turn : Type :=
| Chat (message : string)
| Suggestion (suggestion : string)
| Refinement (options : RefinementOptions.partial number).

Definition mount (uuid_source : nat -> string) (clock : nat -> Z)
    (post_script : list (Settled (SearchResponse.t number)))
    (get_script : list (Settled JsValue)) : World.t number :=
  World.mk PageState.initial uuid_source 0 clock 0 [] [] post_script get_script.

Definition effect_on_q (q : QueryParam) : list (Action (number := number)) :=
  match q with
  | Single value => if truthy value then [InitialSearch value] else []
  | Missing | Repeated _ => []
  end.

Definition turn_action (t : Turn) : Action (number := number) :=
  match t with
  | Chat message => SendMessage message
  | Suggestion suggestion => SuggestionClick suggestion
  | Refinement options => ApplyRefinements options
  end.

Definition session (q : QueryParam) (turns : list Turn) : list (Action (number := number)) :=
  effect_on_q q ++ map turn_action turns.

(** ** Requests and session ids in the network log *)

Definition Exchange : Type :=
  (ApiCall.t number * Settled (SearchResponse.t number + JsValue))%type.

(** The session id that a logged request carries, if any. *)
Definition sent_session (entry : Exchange) : option string :=
  match ApiCall.body (fst entry) with
  | Some request => SearchRequest.session_id request
  | None => None
  end.

(** The logged request was answered with a search response carrying [s]. *)
Definition received_session (s : string) (entry : Exchange) : Prop :=
  exists response data,
    snd entry = Fulfilled response /\
    AxiosResponse.data response = inl data /\
    SearchResponse.session_id data = s.

Definition is_refine_with (s : string) (entry : Exchange) : Prop :=
  ApiCall.method (fst entry) = POST /\
  ApiCall.url (fst entry) = "/refine" /\
  sent_session entry = Some s.

(** The reading of the session-id invariant on a network log: whenever a
    response has carried a session id, every later request carries it. *)
Definition session_id_always_reused (log : list Exchange) : Prop :=
  forall before entry between later after s,
    log = before ++ entry :: between ++ later :: after ->
    received_session s entry ->
    sent_session later = Some s.

(** The responses still to come all carry the session id [s]. *)
Definition keeps_session (s : string) (script : list (Settled (SearchResponse.t number))) : Prop :=
  Forall (fun settled =>
            forall response,
              settled = Fulfilled response ->
              SearchResponse.session_id (AxiosResponse.data response) = s)
         script.

(** The submissions whose response the page takes its session id from. *)
Definition stores_session_id (a : Action (number := number)) : Prop :=
  match a with
  | InitialSearch _ | SendMessage _ | SuggestionClick _ => True
  | RefineSearchClick | ApplyRefinements _ => False
  end.

Definition is_initial_search (a : Action (number := number)) : bool :=
  match a with
  | InitialSearch _ => true
  | _ => false
  end.

(** The fields of a request other than its query. *)
Definition structured_fields (request : SearchRequest.t number) :=
  (SearchRequest.session_id request,
   SearchRequest.price_range request,
   SearchRequest.features_to_add request,
   SearchRequest.features_to_remove request).

(** The request that applying [options] sends from a page in state [render]. *)
Definition refinement_request (render : PageState.t number)
    (options : RefinementOptions.partial number) : SearchRequest.t number :=
  SearchRequest.mk (refinementQuery options)
                   (Some (PageState.sessionId render))
                   (option_map PriceRange.widen (RefinementOptions.price_range options))
                   (RefinementOptions.features options)
                   None.

(** ** The net effect of an action

    What [dispatch] leaves behind, written without the monad: the world
    after an action as a function of the world before it and of the way
    axios settles the request. *)

(** The request a submission hands to axios. *)
Definition request_of (a : Action (number := number)) (render : PageState.t number)
  : option (ApiCall.t number) :=
  match a with
  | InitialSearch q =>
      Some (ApiCall.mk POST "/search" (Some (SearchRequest.mk q None None None None)))
  | SendMessage text | SuggestionClick text =>
      if truthy (PageState.sessionId render)
      then Some (ApiCall.mk POST "/refine"
                   (Some (SearchRequest.mk text (Some (PageState.sessionId render))
                                           None None None)))
      else Some (ApiCall.mk POST "/search"
                   (Some (SearchRequest.mk text None None None None)))
  | ApplyRefinements options =>
      Some (ApiCall.mk POST "/refine" (Some (refinement_request render options)))
  | RefineSearchClick => None
  end.

(** The text of the assistant message for a fulfilled request. *)
Definition answer_of (a : Action (number := number)) (data : SearchResponse.t number) : string :=
  match a with
  | InitialSearch _ =>
      "I found " ++ length_toString (length (SearchResponse.products data))
        ++ " great options for " ++ double_quote
        ++ SearchResponse.query_processed data ++ double_quote
        ++ ". Here are the top recommendations based on reviews, price, and features."
  | SendMessage _ | SuggestionClick _ =>
      "Updated search results! I found "
        ++ length_toString (length (SearchResponse.products data))
        ++ " products that match your refined criteria."
  | ApplyRefinements _ =>
      "Perfect! I've refined your search based on your preferences. Here are "
        ++ length_toString (length (SearchResponse.products data))
        ++ " updated recommendations."
  | RefineSearchClick => EmptyString
  end%string.

(** The two labels that a rejected request leaves on the console. *)
Definition console_labels (a : Action (number := number)) (render : PageState.t number)
  : list string :=
  match a with
  | InitialSearch _ => ["Search API error:"; "Search error:"]
  | SendMessage _ | SuggestionClick _ =>
      if truthy (PageState.sessionId render)
      then ["Refine API error:"; "Search error:"]
      else ["Search API error:"; "Search error:"]
  | ApplyRefinements _ => ["Refine API error:"; "Refinement error:"]
  | RefineSearchClick => []
  end%string.

Definition page_after (a : Action (number := number)) (w : World.t number) : PageState.t number :=
  let render := World.page w in
  let settled := next_settlement (World.post_script w) in
  match a with
  | RefineSearchClick => PageState.with_isRefinementOpen true render
  | _ =>
      PageState.mk
        ((transcript_before a render ++ [user_message w (submitted_text a)])
           ++ [match settled with
               | Fulfilled response =>
                   reply_message w (answer_of a (AxiosResponse.data response))
                     (Some (SearchResponse.products (AxiosResponse.data response)))
               | Rejected _ => reply_message w (apology_of a) None
               end])
        (match settled with
         | Fulfilled response => SearchResponse.products (AxiosResponse.data response)
         | Rejected _ => PageState.products render
         end)
        false
        (match a, settled with
         | (InitialSearch _ | SendMessage _ | SuggestionClick _), Fulfilled response =>
             SearchResponse.session_id (AxiosResponse.data response)
         | _, _ => PageState.sessionId render
         end)
        (match settled with
         | Fulfilled response => SearchResponse.suggestions (AxiosResponse.data response)
         | Rejected _ => PageState.suggestions render
         end)
        (match a with
         | ApplyRefinements _ => false
         | _ => PageState.isRefinementOpen render
         end)
        (match a with
         | ApplyRefinements options => options
         | _ => PageState.refinementOptions render
         end)
  end.

Definition world_after (a : Action (number := number)) (w : World.t number) : World.t number :=
  let settled := next_settlement (World.post_script w) in
  match request_of a (World.page w) with
  | None =>
      World.mk (page_after a w) (World.uuid_source w) (World.uuids_drawn w)
               (World.clock w) (World.clock_reads w) (World.console w)
               (World.network w) (World.post_script w) (World.get_script w)
  | Some request =>
      World.mk (page_after a w) (World.uuid_source w) (S (S (World.uuids_drawn w)))
               (World.clock w) (S (S (World.clock_reads w)))
               (match settled with
                | Fulfilled _ => World.console w
                | Rejected _ =>
                    match console_labels a (World.page w) with
                    | [first; second] => (World.console w ++ [first]) ++ [second]
                    | _ => World.console w
                    end
                end)
               (World.network w ++ [(request, settled_map inl settled)])
               (tl (World.post_script w)) (World.get_script w)
  end.

End Vocabulary.

(** ** Concrete sessions

    A page load with integral prices, used to run the handlers on explicit
    inputs. *)

Definition example_uuid (n : nat) : string :=
  ("uuid-" ++ length_toString n)%string.

Definition example_clock (n : nat) : Z :=
  (1700000000000 + Z.of_nat n)%Z.

Definition example_product : Product.t Z :=
  Product.mk "Wireless headphones" "$59.99" "https://img.example/1.png"
             "https://shop.example/1" 1200%Z "Great sound" "Short cable" 1%Z
             "Best match for the query".

Definition example_response (session_id : string) : SearchResponse.t Z :=
  SearchResponse.mk [example_product] session_id "headphones"
                    ["Add brand preference"; "Adjust price range"]%string.

(** The server answers with status 200 and the session id [session_id]. *)
Definition answers (session_id : string) : Settled (SearchResponse.t Z) :=
  Fulfilled (AxiosResponse.mk 200%Z (example_response session_id)).

(** The server answers with status 500 and a body that names an error code. *)
Definition server_error : JsError :=
  AxiosError "ERR_BAD_RESPONSE"
             (Some (500%Z, JsObject [("code"%string, JsString "E_SESSION")])).

Definition example_page_load (post_script : list (Settled (SearchResponse.t Z)))
  : World.t Z :=
  mount example_uuid example_clock post_script [].

Definition example_options : RefinementOptions.partial Z :=
  panel_options (PriceRange.mk 20%Z 100%Z) ["wireless"%string] true.

Definition example_request : SearchRequest.t Z :=
  SearchRequest.mk "wireless headphones" None None None None.

(** A page whose requests are all answered within session [s1], but for
    one that fails with a server error. *)
Definition example_session_script : list (Settled (SearchResponse.t Z)) :=
  [answers "s1"; answers "s1"; Rejected server_error; answers "s1"].

Definition example_turns : list (Turn (number := Z)) :=
  [Chat "in black"; Refinement example_options; Suggestion "Adjust price range"].

(** A health endpoint that answers 200 with [{ status: 'healthy' }]. *)
Definition healthy_page_load : World.t Z :=
  mount example_uuid example_clock []
        [Fulfilled (AxiosResponse.mk 200%Z (JsObject [("status"%string, JsString "healthy")]))].

(** * The components around the page *)

(** ** More of the JavaScript values

    [String.prototype.trim] removes the white space and the line
    terminators at both ends of a string; which characters these are is a
    parameter of the development. *)

Section Trim.
Variable is_white_space : ascii -> bool.

Fixpoint trimStart (s : string) : string :=
  match s with
  | EmptyString => EmptyString
  | String c rest => if is_white_space c then trimStart rest else s
  end.

Fixpoint trimEnd (s : string) : string :=
  match s with
  | EmptyString => EmptyString
  | String c rest =>
      match trimEnd rest with
      | EmptyString => if is_white_space c then EmptyString else String c EmptyString
      | String _ _ as kept => String c kept
      end
  end.

Definition trim (s : string) : string :=
  trimEnd (trimStart s).

End Trim.

(** The first and the last character of a string. *)
Definition first_char (s : string) : option ascii :=
  match s with
  | EmptyString => None
  | String c _ => Some c
  end.

Fixpoint last_char (s : string) : option ascii :=
  match s with
  | EmptyString => None
  | String c EmptyString => Some c
  | String _ rest => last_char rest
  end.

(** A tidy list of features: no feature twice, none empty, none with
    white space around it. *)
Definition tidy (is_white_space : ascii -> bool) (fs : list string) : Prop :=
  NoDup fs /\ Forall (fun f => f <> EmptyString /\ trim is_white_space f = f) fs.

(** [xs.includes(x)] on an array of strings. *)
Definition includes (xs : list string) (x : string) : bool :=
  existsb (String.eqb x) xs.

(** Number literals, and the truthiness that [||] tests on a number. *)
Class JsNumberLiteral (number : Type) : Type :=
  { Number_literal : Z -> number;
    Number_truthy : number -> bool }.

#[global] Instance JsNumberLiteral_Z : JsNumberLiteral Z :=
  { Number_literal := fun z => z;
    Number_truthy := fun z => negb (Z.eqb z 0) }.

(** ** components/ChatInterface.tsx *)

Module ChatInterface.
Section Component.
Context {number : Type} {numeric : JsNumber number}.
Variable is_white_space : ascii -> bool.

(** The props that the page passes, but for the two callbacks. *)
Record Props : Type := mk_props
  { messages : list (ChatMessage.t number);
    isLoading : bool;
    suggestions : list string }.

(** What the component asks of its parent. *)
Inductive Callback : Type :=
| onSendMessage (message : string)
| onSuggestionClick (suggestion : string).

(** [handleSubmit]: the callbacks it invokes and the new [inputValue]. *)
Definition handleSubmit (props : Props) (inputValue : string) : list Callback * string :=
  if truthy (trim is_white_space inputValue) && negb (isLoading props)
  then ([onSendMessage (trim is_white_space inputValue)], EmptyString)
  else ([], inputValue).

Definition handleSuggestionClick (suggestion : string) : list Callback :=
  [onSuggestionClick suggestion].

(** What the component shows. *)
Record View : Type := mk_view
  { welcome : bool;
    bubbles : list (MessageType * string);
    typing_indicator : bool;
    suggestion_chips : list string;
    input_disabled : bool;
    send_disabled : bool }.

Definition render (props : Props) (inputValue : string) : View :=
  {| welcome := (length (messages props) =? 0)%nat;
     bubbles := map (fun message => (ChatMessage.type message, ChatMessage.content message))
                    (messages props);
     typing_indicator := isLoading props;
     suggestion_chips :=
       if (0 <? length (suggestions props))%nat && negb (isLoading props)
       then suggestions props
       else [];
     input_disabled := isLoading props;
     send_disabled := negb (truthy (trim is_white_space inputValue)) || isLoading props |}.

End Component.
Arguments Props : clear implicits.
End ChatInterface.

(** ** The refinement panel (components/RefinementPanel) *)

Module RefinementPanel.
Section Component.
Context {number : Type} {literal : JsNumberLiteral number}.
Variable is_white_space : ascii -> bool.

(** One field per [useState] of the panel. *)
Record State : Type := mk
  { priceRange : PriceRange.t number;
    newFeature : string;
    features : list string;
    verifiedOnly : bool }.

(** [value || fallback] on a number that may be missing. *)
Definition number_or (value : option number) (fallback : Z) : number :=
  match value with
  | Some n => if Number_truthy n then n else Number_literal fallback
  | None => Number_literal fallback
  end.

(** The initial values of the four states, from the [currentOptions] of
    the first render. *)
Definition initial (currentOptions : RefinementOptions.partial number) : State :=
  {| priceRange :=
       PriceRange.mk
         (number_or (option_map PriceRange.min (RefinementOptions.price_range currentOptions)) 0)
         (number_or (option_map PriceRange.max (RefinementOptions.price_range currentOptions)) 500);
     newFeature := EmptyString;
     features :=
       match RefinementOptions.features currentOptions with
       | Some given => given
       | None => []
       end;
     verifiedOnly :=
       match RefinementOptions.verified_reviews_only currentOptions with
       | Some given => given || false
       | None => false
       end |}.

Definition handleAddFeature (s : State) : State :=
  if truthy (trim is_white_space (newFeature s))
     && negb (includes (features s) (trim is_white_space (newFeature s)))
  then mk (priceRange s) EmptyString
          (features s ++ [trim is_white_space (newFeature s)]) (verifiedOnly s)
  else s.

Definition handleRemoveFeature (featureToRemove : string) (s : State) : State :=
  mk (priceRange s) (newFeature s)
     (filter (fun f => negb (String.eqb f featureToRemove)) (features s))
     (verifiedOnly s).

(** What the panel asks of the page. *)
Inductive Callback : Type :=
| onApplyRefinements (options : RefinementOptions.partial number)
| onClose.

Definition handleApply (s : State) : list Callback :=
  [onApplyRefinements
     (RefinementOptions.mk (Some (priceRange s)) (Some (features s)) (Some (verifiedOnly s)));
   onClose].

Definition handleKeyPress (key : string) (s : State) : State :=
  if String.eqb key "Enter" then handleAddFeature s else s.

(** What the user can do with an open panel; the two number inputs deliver
    [Number(e.target.value)]. *)
Inductive Event : Type :=
| ChangeMin (value : number)
| ChangeMax (value : number)
| ChangeNewFeature (text : string)
| KeyPress (key : string)
| ClickAdd
| ClickRemove (feature : string)
| ChangeVerified (checked : bool)
| ClickApply
| ClickClose.

Definition step (s : State) (e : Event) : State * list Callback :=
  match e with
  | ChangeMin value =>
      (mk (PriceRange.mk value (PriceRange.max (priceRange s)))
          (newFeature s) (features s) (verifiedOnly s), [])
  | ChangeMax value =>
      (mk (PriceRange.mk (PriceRange.min (priceRange s)) value)
          (newFeature s) (features s) (verifiedOnly s), [])
  | ChangeNewFeature text =>
      (mk (priceRange s) text (features s) (verifiedOnly s), [])
  | KeyPress key => (handleKeyPress key s, [])
  | ClickAdd => (handleAddFeature s, [])
  | ClickRemove feature => (handleRemoveFeature feature s, [])
  | ChangeVerified checked =>
      (mk (priceRange s) (newFeature s) (features s) checked, [])
  | ClickApply => (s, handleApply s)
  | ClickClose => (s, [onClose])
  end.

Fixpoint after (events : list Event) (s : State) : State :=
  match events with
  | [] => s
  | e :: rest => after rest (fst (step s e))
  end.

End Component.
Arguments State : clear implicits.
End RefinementPanel.

(** ** pages/search.tsx: what the page shows *)

Section SearchPageView.
Context {number : Type} {numeric : JsNumber number}.

(** The product column of the page: its count, its placeholder, its
    spinner, and the products that it hands to [ProductCard], one each
    (what a card renders is not described here). *)
Record ProductColumn : Type := mk_column
  { result_count : option string;
    empty_placeholder : bool;
    spinner : bool;
    cards : list (Product.t number) }.

Definition product_column (s : PageState.t number) : ProductColumn :=
  let products := PageState.products s in
  {| result_count :=
       if (0 <? length products)%nat
       then Some (length_toString (length products) ++ " result"
                    ++ (if negb (length products =? 1)%nat then "s" else EmptyString))%string
       else None;
     empty_placeholder := (length products =? 0)%nat && negb (PageState.isLoading s);
     spinner := PageState.isLoading s && (length products =? 0)%nat;
     cards := products |}.

(** The props that the page passes to the chat. *)
Definition chat_props (s : PageState.t number) : ChatInterface.Props number :=
  ChatInterface.mk_props (PageState.messages s) (PageState.isLoading s)
                         (PageState.suggestions s).

(** The two callbacks of the chat, as wired by the page. *)
Definition chat_action (c : ChatInterface.Callback) : Action (number := number) :=
  match c with
  | ChatInterface.onSendMessage message => SendMessage message
  | ChatInterface.onSuggestionClick suggestion => SuggestionClick suggestion
  end.

(** The callbacks of the panel, as wired by the page: [handleApply] runs
    [handleApplyRefinements] and closes the panel. *)
Definition apply_from_panel (s : RefinementPanel.State number) : Action (number := number) :=
  ApplyRefinements
    (panel_options (RefinementPanel.priceRange s) (RefinementPanel.features s)
                   (RefinementPanel.verifiedOnly s)).

(** Submitting the form of the chat on a page in world [w]: the callbacks
    of [handleSubmit] run as the page has wired them. *)
Definition submit_from_chat (is_white_space : ascii -> bool) (inputValue : string)
    (w : World.t number) : World.t number * string :=
  (run (map chat_action
            (fst (ChatInterface.handleSubmit is_white_space
                    (chat_props (World.page w)) inputValue)))
       w,
   snd (ChatInterface.handleSubmit is_white_space (chat_props (World.page w)) inputValue)).

(** The products attached to the latest message of a transcript that has
    any, and none when no message has. *)
Definition latest_attached (transcript : list (ChatMessage.t number)) : list (Product.t number) :=
  fold_left (fun shown message =>
               match ChatMessage.products message with
               | Some attached => attached
               | None => shown
               end)
            transcript [].

(** The texts of the user's messages, oldest first. *)
Definition questions (transcript : list (ChatMessage.t number)) : list string :=
  map (fun m => ChatMessage.content m)
      (filter (fun m => match ChatMessage.type m with user => true | assistant => false end)
              transcript).

(** A logged request is a POST with a body, to one of the two endpoints. *)
Definition is_search_or_refine (entry : Exchange (number := number)) : Prop :=
  ApiCall.method (fst entry) = POST /\
  (ApiCall.url (fst entry) = "/search" \/ ApiCall.url (fst entry) = "/refine") /\
  ApiCall.body (fst entry) <> None.

End SearchPageView.

(** White space among the characters below 256: tab, line feed, vertical
    tab, form feed, carriage return, space and no-break space. *)
Definition latin1_white_space (c : ascii) : bool :=
  match nat_of_ascii c with
  | 9 | 10 | 11 | 12 | 13 | 32 | 160 => true
  | _ => false
  end.

(** A source of tokens that never repeats. *)
Fixpoint tally (n : nat) : string :=
  match n with
  | O => EmptyString
  | S m => String "i" (tally m)
  end.

(** A panel in which the user has typed a feature with blanks around it. *)
Definition example_panel : RefinementPanel.State Z :=
  RefinementPanel.mk (PriceRange.mk 20%Z 100%Z) "  wireless " ["waterproof"%string] false.

(** The server finds nothing. *)
Definition empty_response : AxiosResponse.t (SearchResponse.t Z) :=
  AxiosResponse.mk 200%Z (SearchResponse.mk [] "s1" "unicorn saddle" []).

(** * Submissions that overlap

    An [async] handler runs up to its [await] when the user acts, and its
    rest runs when the promise of its request settles.  Nothing on the
    page keeps the refinement panel, or a change of [q], from starting a
    handler while the request of another one is pending, so the two parts
    of different handlers can interleave. *)

(** The API operation a handler is suspended in, with the request. *)
Inductive Awaited (number : Type) : Type :=
| in_searchProducts (request : SearchRequest.t number)
| in_refineSearch (request : SearchRequest.t number).

(** The handler that is suspended. *)
Inductive Suspended : Type :=
| in_handleInitialSearch
| in_handleSendMessage
| in_handleApplyRefinements.

Module Flight.
Section WithNumber.
Context {number : Type}.
Record t : Type := mk
  { handler : Suspended;
    awaited : Awaited number }.
End WithNumber.
Arguments t : clear implicits.
End Flight.

Module Live.
Section WithNumber.
Context {number : Type}.
(** The world, and the handlers waiting for their requests, oldest first. *)
Record t : Type := mk
  { world : World.t number;
    flights : list (Flight.t number) }.

(** A page on which no handler is waiting. *)
Definition idle (w : World.t number) : t :=
  {| world := w; flights := [] |}.
End WithNumber.
Arguments t : clear implicits.
End Live.

Section Overlap.
Context {number : Type} {numeric : JsNumber number}.
Local Abbreviation M := (Async number) (only parsing).

(** The API operation from its [await] on: the promise settles (the
    exchange enters the log then), and the operation returns or throws. *)
Definition api_resumes (awaited : Awaited number) : M (SearchResponse.t number) :=
  match awaited with
  | in_searchProducts request => searchProducts request
  | in_refineSearch request => refineSearch request
  end.

(** [handleInitialSearch] up to its [await], and from it on. *)
Definition handleInitialSearch_starts (render : PageState.t number) (query : string)
  : M (Awaited number) :=
  setIsLoading true ;;
  userMessage <- new_message user query None ;;
  setMessages (fun _ => [userMessage]) ;;
  ret (in_searchProducts (SearchRequest.mk query None None None None)).

Definition handleInitialSearch_resumes (awaited : Awaited number) : M unit :=
  try_finally
    (try_catch
       (response <- api_resumes awaited ;;
        setProducts (SearchResponse.products response) ;;
        setSessionId (SearchResponse.session_id response) ;;
        setSuggestions (SearchResponse.suggestions response) ;;
        assistantMessage <-
          new_message assistant
            ("I found " ++ length_toString (length (SearchResponse.products response))
               ++ " great options for " ++ double_quote
               ++ SearchResponse.query_processed response ++ double_quote
               ++ ". Here are the top recommendations based on reviews, price, and features.")
            (Some (SearchResponse.products response)) ;;
        setMessages (fun prev => prev ++ [assistantMessage]))
       (fun error =>
          console_error "Search error:" ;;
          errorMessage <-
            new_message assistant
              "Sorry, I encountered an error while searching for products. Please try again."
              None ;;
          setMessages (fun prev => prev ++ [errorMessage])))
    (setIsLoading false).

(** [handleSendMessage] up to its [await], and from it on. *)
Definition handleSendMessage_starts (render : PageState.t number) (message : string)
  : M (Awaited number) :=
  setIsLoading true ;;
  userMessage <- new_message user message None ;;
  setMessages (fun prev => prev ++ [userMessage]) ;;
  ret (if truthy (PageState.sessionId render)
       then in_refineSearch
              (SearchRequest.mk message (Some (PageState.sessionId render)) None None None)
       else in_searchProducts (SearchRequest.mk message None None None None)).

Definition handleSendMessage_resumes (awaited : Awaited number) : M unit :=
  try_finally
    (try_catch
       (response <- api_resumes awaited ;;
        setProducts (SearchResponse.products response) ;;
        setSessionId (SearchResponse.session_id response) ;;
        setSuggestions (SearchResponse.suggestions response) ;;
        assistantMessage <-
          new_message assistant
            ("Updated search results! I found "
               ++ length_toString (length (SearchResponse.products response))
               ++ " products that match your refined criteria.")
            (Some (SearchResponse.products response)) ;;
        setMessages (fun prev => prev ++ [assistantMessage]))
       (fun error =>
          console_error "Search error:" ;;
          errorMessage <-
            new_message assistant
              "Sorry, I encountered an error. Please try rephrasing your request."
              None ;;
          setMessages (fun prev => prev ++ [errorMessage])))
    (setIsLoading false).

(** [handleApplyRefinements] up to its [await], and from it on. *)
Definition handleApplyRefinements_starts (render : PageState.t number)
    (options : RefinementOptions.partial number) : M (Awaited number) :=
  setRefinementOptions options ;;
  setIsLoading true ;;
  let refinementQuery := refinementQuery options in
  userMessage <- new_message user refinementQuery None ;;
  setMessages (fun prev => prev ++ [userMessage]) ;;
  ret (in_refineSearch
         (SearchRequest.mk refinementQuery
            (Some (PageState.sessionId render))
            (option_map PriceRange.widen (RefinementOptions.price_range options))
            (RefinementOptions.features options)
            None)).

Definition handleApplyRefinements_resumes (awaited : Awaited number) : M unit :=
  try_finally
    (try_catch
       (response <- api_resumes awaited ;;
        setProducts (SearchResponse.products response) ;;
        setSuggestions (SearchResponse.suggestions response) ;;
        assistantMessage <-
          new_message assistant
            ("Perfect! I've refined your search based on your preferences. Here are "
               ++ length_toString (length (SearchResponse.products response))
               ++ " updated recommendations.")
            (Some (SearchResponse.products response)) ;;
        setMessages (fun prev => prev ++ [assistantMessage]))
       (fun error =>
          console_error "Refinement error:" ;;
          errorMessage <-
            new_message assistant
              "Sorry, I had trouble refining your search. Please try again."
              None ;;
          setMessages (fun prev => prev ++ [errorMessage])))
    (setIsLoading false).

(** The first part of the handler of an action; opening the panel has no
    second part.  [handleApply] of the panel calls [onClose] as soon as
    [handleApplyRefinements] has reached its [await]. *)
Definition starts (a : Action (number := number)) (render : PageState.t number)
  : M (option (Flight.t number)) :=
  match a with
  | InitialSearch q =>
      awaited <- handleInitialSearch_starts render q ;;
      ret (Some (Flight.mk in_handleInitialSearch awaited))
  | SendMessage message | SuggestionClick message =>
      awaited <- handleSendMessage_starts render message ;;
      ret (Some (Flight.mk in_handleSendMessage awaited))
  | RefineSearchClick =>
      handleRefineSearch ;;
      ret None
  | ApplyRefinements options =>
      awaited <- handleApplyRefinements_starts render options ;;
      setIsRefinementOpen false ;;
      ret (Some (Flight.mk in_handleApplyRefinements awaited))
  end.

(** The second part of a suspended handler. *)
Definition resumes (flight : Flight.t number) : M unit :=
  match Flight.handler flight with
  | in_handleInitialSearch => handleInitialSearch_resumes (Flight.awaited flight)
  | in_handleSendMessage => handleSendMessage_resumes (Flight.awaited flight)
  | in_handleApplyRefinements => handleApplyRefinements_resumes (Flight.awaited flight)
  end.

(** What happens on a page: an action of the user (or a change of [q])
    starts a handler; the request of the [i]-th waiting handler settles, by
    the next settlement of the script. *)
Inductive Moment : Type :=
| Starts (a : Action (number := number))
| Settles (i : nat).

Definition start (a : Action (number := number)) (live : Live.t number) : Live.t number :=
  match starts a (World.page (Live.world live)) (Live.world live) with
  | (Normal (Some flight), w') => Live.mk w' (Live.flights live ++ [flight])
  | (_, w') => Live.mk w' (Live.flights live)
  end.

Definition settle (i : nat) (live : Live.t number) : Live.t number :=
  match nth_error (Live.flights live) i with
  | Some flight =>
      Live.mk (snd (resumes flight (Live.world live)))
              (firstn i (Live.flights live) ++ skipn (S i) (Live.flights live))
  | None => live
  end.

Definition moment (m : Moment) (live : Live.t number) : Live.t number :=
  match m with
  | Starts a => start a live
  | Settles i => settle i live
  end.

Fixpoint play (moments : list Moment) (live : Live.t number) : Live.t number :=
  match moments with
  | [] => live
  | m :: rest => play rest (moment m live)
  end.

(** Every handler finishes before the next action. *)
Definition one_at_a_time (actions : list (Action (number := number))) : list Moment :=
  flat_map (fun a => [Starts a; Settles 0]) actions.

(** The moments that start a submission, and those that start an initial
    search. *)
Definition starts_submission (m : Moment) : bool :=
  match m with
  | Starts a => is_submission a
  | Settles _ => false
  end.

Definition starts_initial_search (m : Moment) : bool :=
  match m with
  | Starts a => is_initial_search a
  | Settles _ => false
  end.

(** The messages of one type in a transcript. *)
Definition messages_of (type : MessageType) (transcript : list (ChatMessage.t number))
  : list (ChatMessage.t number) :=
  filter (fun m => match ChatMessage.type m, type with
                   | user, user | assistant, assistant => true
                   | _, _ => false
                   end)
         transcript.

End Overlap.

(** A chat message and a refinement whose requests are both pending before
    either is answered, on a page that the server answers in session [s1]. *)
Definition overlapping_moments : list (Moment (number := Z)) :=
  [Starts (SendMessage "in black"); Starts (ApplyRefinements example_options);
   Settles 0; Settles 0].

(** Three submissions, the third one a new query in the URL. *)
Definition second_query_in_url : list (Action (number := Z)) :=
  [InitialSearch "headphones"; SendMessage "in black"; InitialSearch "speakers"].

(** * Properties *)

Lemma string_append_assoc (a b c : string) :
  ((a ++ b) ++ c)%string = (a ++ (b ++ c))%string.
Proof.
  induction a as [|ch a IH]; simpl; [reflexivity | now rewrite IH].
Qed.

Lemma string_append_empty_r (a : string) : (a ++ EmptyString)%string = a.
Proof.
  induction a as [|ch a IH]; simpl; [reflexivity | now rewrite IH].
Qed.

(** ** The API client *)

Section ApiProperties.
Context {number : Type}.
Implicit Types (w : World.t number) (request : SearchRequest.t number).

(** C7. Whatever makes axios reject a request (no answer in time, a network
    failure, a status outside 200..299 with any body), [searchProducts]
    throws the one error [Failed to search products] and [refineSearch] the
    one error [Failed to refine search]: the two errors differ from each
    other, and nothing of the rejection (code, status, body) reaches them. *)
Theorem api_failure_is_generic w request reason :
  next_settlement (World.post_script w) = Rejected reason ->
  fst (searchProducts request w) = Abrupt (Error "Failed to search products") /\
  fst (refineSearch request w) = Abrupt (Error "Failed to refine search") /\
  Error "Failed to search products" <> Error "Failed to refine search".
Proof.
  intros Hrejected.
  unfold searchProducts, refineSearch, try_catch, bind, api_post.
  rewrite Hrejected; cbn.
  repeat split; discriminate.
Qed.

(** The only thing the two operations ever throw is their own error. *)
Lemma searchProducts_throws_only_its_error w request e :
  fst (searchProducts request w) = Abrupt e -> e = Error "Failed to search products".
Proof.
  unfold searchProducts, try_catch, bind, api_post.
  destruct (next_settlement (World.post_script w)); cbn; congruence.
Qed.

Lemma refineSearch_throws_only_its_error w request e :
  fst (refineSearch request w) = Abrupt e -> e = Error "Failed to refine search".
Proof.
  unfold refineSearch, try_catch, bind, api_post.
  destruct (next_settlement (World.post_script w)); cbn; congruence.
Qed.

Lemma strict_equals_string_true (v : JsValue) (literal : string) :
  strict_equals_string v literal = true <-> v = JsString literal.
Proof.
  destruct v; cbn; try (split; [discriminate | congruence]).
  rewrite String.eqb_eq. split; congruence.
Qed.

(** C10. [healthCheck] never throws: it returns a boolean, which is [true]
    exactly when the request is fulfilled with a body whose [status] field
    is the string [healthy]; so it is [false] for any other body and for
    every rejected request. *)
Theorem healthCheck_never_throws w :
  exists healthy : bool,
    fst (healthCheck w) = Normal healthy /\
    (healthy = true <-> reports_healthy (next_settlement (World.get_script w))) /\
    (forall reason,
        next_settlement (World.get_script w) = Rejected reason -> healthy = false).
Proof.
  unfold healthCheck, try_catch, bind, api_get, reports_healthy.
  destruct (next_settlement (World.get_script w)) as [[status body]|reason]; cbn.
  - destruct body; cbn;
      try (exists false; repeat split; try discriminate;
           intros (r & props & Hr & Hbody & _); injection Hr as <-; discriminate).
    exists (strict_equals_string (own_property "status" props) "healthy").
    repeat split; try discriminate.
    + intros Htrue. apply strict_equals_string_true in Htrue.
      eexists; eexists; repeat split; cbn; eassumption.
    + intros (r & props' & Hr & Hbody & Hstatus).
      injection Hr as <-. cbn in Hbody. injection Hbody as <-.
      now apply strict_equals_string_true.
  - exists false. repeat split; try discriminate.
    intros (r & props & Hr & _). discriminate.
Qed.

End ApiProperties.

(** ** The refinement instruction *)

Section RefinementQuery.
Context {number : Type} {numeric : JsNumber number}.

(** C4. For every combination of options the instruction built by
    [handleApplyRefinements] is the opening [Refine my search] followed by
    the price clause, the feature clause and the verified-reviews clause in
    that order, each one left out when its option is missing or empty. *)
Theorem refinementQuery_clause_order (options : RefinementOptions.partial number) :
  refinementQuery options = instruction_spec options.
Proof.
  unfold refinementQuery, instruction_spec, price_clause, feature_clause, verified_clause.
  destruct options as [[bounds|] [[|f fs]|] [[|]|]]; cbn [RefinementOptions.price_range
    RefinementOptions.features RefinementOptions.verified_reviews_only
    concat_present length Nat.ltb Nat.leb];
    rewrite ?string_append_assoc, ?string_append_empty_r; reflexivity.
Qed.

End RefinementQuery.

(** C3. With price bounds 20 and 100, the one feature [wireless] and no
    verified-reviews flag (missing, or switched off as the panel sends it),
    the instruction is exactly the sentence of the specification. *)
Theorem refinementQuery_example :
  refinementQuery
    (RefinementOptions.mk (Some (PriceRange.mk 20%Z 100%Z)) (Some ["wireless"%string]) None)
  = "Refine my search with budget between $20 and $100 including features: wireless"
  /\
  refinementQuery (panel_options (PriceRange.mk 20%Z 100%Z) ["wireless"%string] false)
  = "Refine my search with budget between $20 and $100 including features: wireless".
Proof.
  split; reflexivity.
Qed.

(** ** The search page, one action at a time *)

Section PageProperties.
Context {number : Type} {numeric : JsNumber number}.
Implicit Types (w : World.t number) (a : Action (number := number)).

(** The handlers leave the world that [world_after] describes, and never
    throw. *)
Lemma dispatch_world_after a w :
  dispatch a w = (Normal tt, world_after a w).
Proof.
  destruct w as [[messages products isLoading sessionId suggestions isOpen options]
                   uuid_source uuids_drawn clock clock_reads console network
                   post_script get_script].
  destruct a; destruct sessionId as [|c sessionId];
    destruct post_script as [|[[status data]|reason] post_script];
    reflexivity.
Qed.

Lemma dispatch_snd a w : snd (dispatch a w) = world_after a w.
Proof. now rewrite dispatch_world_after. Qed.

(** Expresses the goal on the net effect of the action, and splits it on
    the branch of the session-id test and on the settlement. *)
Ltac net_effect w :=
  rewrite ?dispatch_snd; unfold world_after, page_after, request_of;
  cbv zeta;
  destruct (truthy (PageState.sessionId (World.page w)));
  destruct (next_settlement (World.post_script w)) as [[? ?]|?].

(** Every submission consumes one settlement of the script; opening the
    panel consumes none. *)
Lemma dispatch_post_script a w :
  World.post_script (snd (dispatch a w)) =
  if is_submission a then tl (World.post_script w) else World.post_script w.
Proof.
  destruct a; net_effect w; reflexivity.
Qed.

(** Every submission appends one turn to the transcript it starts from,
    however its request settles. *)
Lemma dispatch_appends_turn a w :
  is_submission a = true ->
  exists text products,
    PageState.messages (World.page (snd (dispatch a w))) =
    transcript_before a (World.page w)
      ++ [user_message w (submitted_text a); reply_message w text products].
Proof.
  intros Hsub.
  destruct a; try discriminate Hsub; net_effect w;
    cbn [World.page PageState.messages]; rewrite <- app_assoc;
    eexists; eexists; reflexivity.
Qed.

(** The stored session id changes only when an initial search or a chat
    submission is fulfilled, and then to the id of the response. *)
Lemma dispatch_sessionId a w :
  PageState.sessionId (World.page (snd (dispatch a w))) =
  match a, next_settlement (World.post_script w) with
  | (InitialSearch _ | SendMessage _ | SuggestionClick _), Fulfilled response =>
      SearchResponse.session_id (AxiosResponse.data response)
  | _, _ => PageState.sessionId (World.page w)
  end.
Proof.
  destruct a; net_effect w; reflexivity.
Qed.

(** With a non-empty stored id, every submission other than the initial
    search sends exactly one request, a refine request with that id. *)
Lemma dispatch_refines_with_stored_id a w :
  is_submission a = true ->
  is_initial_search a = false ->
  truthy (PageState.sessionId (World.page w)) = true ->
  exists call,
    World.network (snd (dispatch a w)) = World.network w ++ [call] /\
    is_refine_with (PageState.sessionId (World.page w)) call.
Proof.
  intros Hsub Hnot Hid.
  destruct a; try discriminate Hnot; try discriminate Hsub;
    rewrite dispatch_snd; unfold world_after, request_of; rewrite ?Hid;
    cbn [World.network]; eexists; (split; [reflexivity|]); repeat split.
Qed.

(** C6. A text submitted through the chat input appends its user message;
    the request is a refine request carrying the stored session id when
    that id is non-empty, and a search request without id otherwise; when
    the request is fulfilled, the assistant message built from the response
    follows the user message, and the product list and the suggestion list
    become those of the response. *)
Theorem handleSendMessage_success w message response rest :
  World.post_script w = Fulfilled response :: rest ->
  let render := World.page w in
  let data := AxiosResponse.data response in
  let w' := snd (dispatch (SendMessage message) w) in
  PageState.messages (World.page w') =
    PageState.messages render
      ++ [user_message w message;
          reply_message w
            ("Updated search results! I found "
               ++ length_toString (length (SearchResponse.products data))
               ++ " products that match your refined criteria.")
            (Some (SearchResponse.products data))] /\
  PageState.products (World.page w') = SearchResponse.products data /\
  PageState.suggestions (World.page w') = SearchResponse.suggestions data /\
  exists call,
    World.network w' =
      World.network w
        ++ [(call, Fulfilled (AxiosResponse.mk (AxiosResponse.status response) (inl data)))] /\
    (PageState.sessionId render <> EmptyString ->
     call = ApiCall.mk POST "/refine"
              (Some (SearchRequest.mk message (Some (PageState.sessionId render))
                                      None None None))) /\
    (PageState.sessionId render = EmptyString ->
     call = ApiCall.mk POST "/search"
              (Some (SearchRequest.mk message None None None None))).
Proof.
  intros Hscript render data w'. subst render data w'.
  rewrite dispatch_snd. unfold world_after, page_after, request_of. cbv zeta.
  rewrite Hscript. cbn [next_settlement World.page World.network PageState.messages
    PageState.products PageState.suggestions transcript_before submitted_text
    answer_of settled_map].
  rewrite <- app_assoc.
  destruct (PageState.sessionId (World.page w)) as [|c sid] eqn:Hsid;
    cbn [truthy World.page World.network PageState.messages PageState.products
         PageState.suggestions];
    (repeat split; try reflexivity);
    eexists; (split; [reflexivity|]); split; intros H; congruence.
Qed.

(** C2. When the request of a submission is rejected, the product list,
    the stored session id and the suggestions stay as they were, the
    transcript gains after the user message exactly one assistant message,
    the apology of that handler, without products, and exactly one request
    has been sent: nothing is retried. *)
Theorem failed_call_keeps_products w a reason :
  is_submission a = true ->
  next_settlement (World.post_script w) = Rejected reason ->
  let w' := snd (dispatch a w) in
  PageState.products (World.page w') = PageState.products (World.page w) /\
  PageState.sessionId (World.page w') = PageState.sessionId (World.page w) /\
  PageState.suggestions (World.page w') = PageState.suggestions (World.page w) /\
  PageState.messages (World.page w') =
    transcript_before a (World.page w)
      ++ [user_message w (submitted_text a); reply_message w (apology_of a) None] /\
  exists call, World.network w' = World.network w ++ [(call, Rejected reason)].
Proof.
  intros Hsub Hrejected w'. subst w'.
  rewrite dispatch_snd. unfold world_after, page_after.
  cbv zeta. rewrite Hrejected.
  destruct a; try discriminate Hsub; unfold request_of;
    try destruct (truthy (PageState.sessionId (World.page w)));
    cbn [World.page World.network PageState.messages PageState.products
         PageState.suggestions PageState.sessionId settled_map];
    rewrite <- app_assoc;
    (repeat split; try reflexivity); eexists; reflexivity.
Qed.

(** C8. Applying refinement options sends one refine request made of the
    instruction as query, the stored session id, the price bounds and the
    feature list as [features_to_add], with no [features_to_remove]; the
    verified-reviews flag is no field of the request, and changing it
    changes nothing of the request but its query. *)
Theorem refinement_request_fields w (options : RefinementOptions.partial number) :
  (exists outcome,
      World.network (snd (dispatch (ApplyRefinements options) w)) =
      World.network w
        ++ [(ApiCall.mk POST "/refine" (Some (refinement_request (World.page w) options)),
             outcome)]) /\
  SearchRequest.features_to_remove (refinement_request (World.page w) options) = None /\
  forall flag,
    structured_fields
      (refinement_request (World.page w)
         (RefinementOptions.mk (RefinementOptions.price_range options)
                               (RefinementOptions.features options) flag))
    = structured_fields (refinement_request (World.page w) options).
Proof.
  split; [|split; [reflexivity | intros flag; reflexivity]].
  rewrite dispatch_snd. unfold world_after, request_of.
  cbn [World.network]. eexists; reflexivity.
Qed.

(** C9. Applying refinements always sends a refine request, with the
    stored session id as its [session_id]; on a page that holds no session
    id yet this field is the empty string, whereas a chat submission on the
    same page sends a search request without a [session_id]. *)
Theorem apply_refines_without_session w (options : RefinementOptions.partial number) message :
  (exists request outcome,
      World.network (snd (dispatch (ApplyRefinements options) w)) =
      World.network w ++ [(ApiCall.mk POST "/refine" (Some request), outcome)] /\
      SearchRequest.session_id request = Some (PageState.sessionId (World.page w))) /\
  (PageState.sessionId (World.page w) = EmptyString ->
   (exists request outcome,
       World.network (snd (dispatch (ApplyRefinements options) w)) =
       World.network w ++ [(ApiCall.mk POST "/refine" (Some request), outcome)] /\
       SearchRequest.session_id request = Some EmptyString) /\
   (exists request outcome,
       World.network (snd (dispatch (SendMessage message) w)) =
       World.network w ++ [(ApiCall.mk POST "/search" (Some request), outcome)] /\
       SearchRequest.session_id request = None)).
Proof.
  split; [|intros Hnone; split].
  - rewrite dispatch_snd. unfold world_after, request_of. cbn [World.network].
    eexists; eexists; split; reflexivity.
  - rewrite dispatch_snd. unfold world_after, request_of. cbn [World.network].
    eexists; eexists; split; [reflexivity|].
    unfold refinement_request; cbn [SearchRequest.session_id]. now rewrite Hnone.
  - rewrite dispatch_snd. unfold world_after, request_of. rewrite Hnone.
    cbn [truthy World.network]. eexists; eexists; split; reflexivity.
Qed.

End PageProperties.

(** ** The search page over a whole session *)

Section SessionProperties.
Context {number : Type} {numeric : JsNumber number}.
Implicit Types (w : World.t number) (a : Action (number := number)).

Lemma turns_of_snoc_turn (transcript : list (ChatMessage.t number)) question answer :
  ChatMessage.type question = user ->
  ChatMessage.type answer = assistant ->
  forall n, turns_of transcript = Some n ->
            turns_of (transcript ++ [question; answer]) = Some (S n).
Proof.
  intros Hq Ha.
  assert (Hboth :
    (forall n, turns_of transcript = Some n ->
               turns_of (transcript ++ [question; answer]) = Some (S n)) /\
    (forall m n, turns_of (m :: transcript) = Some n ->
                 turns_of ((m :: transcript) ++ [question; answer]) = Some (S n))).
  { induction transcript as [|m' transcript [IH0 IH1]].
    - split.
      + intros n Hn. cbn in *. rewrite Hq, Ha. now injection Hn as <-.
      + intros m n Hn. discriminate Hn.
    - split.
      + intros n. apply IH1.
      + intros m n Hn. cbn in Hn |- *.
        destruct (ChatMessage.type m); try discriminate.
        destruct (ChatMessage.type m'); try discriminate.
        destruct (turns_of transcript) as [k|] eqn:Hk; try discriminate.
        rewrite (IH0 k eq_refl). cbn in Hn |- *. now injection Hn as <-. }
  exact (proj1 Hboth).
Qed.

Lemma turns_of_length (transcript : list (ChatMessage.t number)) :
  forall n, turns_of transcript = Some n -> length transcript = 2 * n.
Proof.
  assert (Hboth :
    (forall n, turns_of transcript = Some n -> length transcript = 2 * n) /\
    (forall m n, turns_of (m :: transcript) = Some n ->
                 length (m :: transcript) = 2 * n)).
  { induction transcript as [|m' transcript [IH0 IH1]].
    - split.
      + intros n Hn. injection Hn as <-. reflexivity.
      + intros m n Hn. discriminate Hn.
    - split.
      + intros n. apply IH1.
      + intros m n Hn. cbn in Hn.
        destruct (ChatMessage.type m); try discriminate.
        destruct (ChatMessage.type m'); try discriminate.
        destruct (turns_of transcript) as [k|] eqn:Hk; try discriminate.
        injection Hn as <-. cbn [length]. rewrite (IH0 k eq_refl). lia. }
  exact (proj1 Hboth).
Qed.

(** A submission other than the initial search adds one turn. *)
Lemma dispatch_adds_turn a w n :
  is_submission a = true ->
  is_initial_search a = false ->
  turns_of (PageState.messages (World.page w)) = Some n ->
  turns_of (PageState.messages (World.page (snd (dispatch a w)))) = Some (S n).
Proof.
  intros Hsub Hnot Hn.
  destruct (dispatch_appends_turn a w Hsub) as (text & products & ->).
  replace (transcript_before a (World.page w)) with (PageState.messages (World.page w))
    by (destruct a; try reflexivity; discriminate Hnot).
  now apply turns_of_snoc_turn.
Qed.

(** The initial search leaves a transcript of one turn. *)
Lemma initial_search_single_turn q w :
  turns_of (PageState.messages (World.page (snd (dispatch (InitialSearch q) w)))) = Some 1.
Proof.
  destruct (dispatch_appends_turn (InitialSearch q) w eq_refl) as (text & products & ->).
  reflexivity.
Qed.

Lemma run_turns (turns : list (Turn (number := number))) :
  forall w n,
    turns_of (PageState.messages (World.page w)) = Some n ->
    turns_of (PageState.messages (World.page (run (map turn_action turns) w)))
    = Some (n + length turns).
Proof.
  induction turns as [|t turns IH]; intros w n Hn; cbn [map run length].
  - now rewrite Nat.add_0_r.
  - rewrite (IH _ (S n)).
    + f_equal. lia.
    + apply dispatch_adds_turn; try assumption; now destruct t.
Qed.

(** From the mounting of the page, after the [N] submissions of a session
    (the initial search of the URL, if any, then any chat messages,
    suggestion clicks and refinements), each one finished before the next
    starts, the transcript has exactly [2 N] messages: [N] turns of one
    user message followed by one assistant message, however the requests
    settle. *)
Theorem transcript_two_messages_per_turn uuid_source clock post_script get_script
    (q : QueryParam) (turns : list (Turn (number := number))) :
  let submissions := session q turns in
  let final := run submissions (mount uuid_source clock post_script get_script) in
  length (PageState.messages (World.page final)) = 2 * length submissions /\
  turns_of (PageState.messages (World.page final)) = Some (length submissions).
Proof.
  intros submissions final.
  assert (Hturns : turns_of (PageState.messages (World.page final))
                   = Some (length submissions)).
  { subst final submissions. unfold session, effect_on_q.
    destruct q as [|value|values]; [| destruct (truthy value) |];
      cbn [app run length]; rewrite length_map.
    1, 3, 4: apply (run_turns turns _ (n := 0)); reflexivity.
    apply (run_turns turns _ (n := 1)), initial_search_single_turn. }
  split; [now apply turns_of_length | exact Hturns].
Qed.

(** An initial search that runs on a page with a transcript discards it:
    the transcript is then the turn of that search alone. *)
Lemma later_initial_search_resets_transcript q w :
  length (PageState.messages (World.page (snd (dispatch (InitialSearch q) w)))) = 2.
Proof.
  now rewrite (turns_of_length _ (initial_search_single_turn q w)).
Qed.

Lemma truthy_nonempty (s : string) : truthy s = true <-> s <> EmptyString.
Proof.
  destruct s; cbn; split; congruence.
Qed.

Lemma keeps_session_tl s (script : list (Settled (SearchResponse.t number))) :
  keeps_session s script -> keeps_session s (tl script).
Proof.
  intros H. destruct script; [exact H | now inversion H].
Qed.

Lemma keeps_session_next s (script : list (Settled (SearchResponse.t number))) response :
  keeps_session s script ->
  next_settlement script = Fulfilled response ->
  SearchResponse.session_id (AxiosResponse.data response) = s.
Proof.
  intros H Hnext. destruct script as [|settled script]; [discriminate Hnext|].
  inversion H as [|? ? Hhead _]. apply Hhead. exact Hnext.
Qed.

(** While the responses keep carrying the stored id, the turns of the user
    keep it stored and send it with every request. *)
Lemma run_reuses_stored_id s (turns : list (Turn (number := number))) :
  truthy s = true ->
  forall w,
    PageState.sessionId (World.page w) = s ->
    keeps_session s (World.post_script w) ->
    PageState.sessionId (World.page (run (map turn_action turns) w)) = s /\
    exists calls,
      World.network (run (map turn_action turns) w) = World.network w ++ calls /\
      Forall (is_refine_with s) calls /\
      length calls = length turns.
Proof.
  intros Hs.
  induction turns as [|t turns IH]; intros w Hid Hkeeps; cbn [map run length].
  - split; [exact Hid|]. exists []. now rewrite app_nil_r.
  - assert (Hsub : is_submission (turn_action t) = true) by now destruct t.
    assert (Hnot : is_initial_search (turn_action t) = false) by now destruct t.
    destruct (dispatch_refines_with_stored_id (turn_action t) w Hsub Hnot) as
      (sent & Hnet & Hsent); [now rewrite Hid|].
    rewrite Hid in Hsent.
    destruct (IH (snd (dispatch (turn_action t) w))) as (Hid' & calls & Hnet' & Hall' & Hlen').
    + rewrite dispatch_sessionId.
      destruct (next_settlement (World.post_script w)) as [response|reason] eqn:Hnext;
        destruct t; cbn [turn_action]; try exact Hid; now apply (keeps_session_next Hkeeps).
    + rewrite dispatch_post_script, Hsub. now apply keeps_session_tl.
    + split; [exact Hid'|].
      exists (sent :: calls). rewrite Hnet', Hnet, <- app_assoc. split; [reflexivity|].
      split; [now constructor | cbn [length]; now rewrite Hlen'].
Qed.

Lemma next_settlement_In (script : list (Settled (SearchResponse.t number))) response :
  next_settlement script = Fulfilled response -> In (Fulfilled response) script.
Proof.
  destruct script as [|settled script]; [discriminate|].
  cbn. intros ->. now left.
Qed.

Lemma In_tl {A : Type} (x : A) (l : list A) : In x (tl l) -> In x l.
Proof.
  destruct l; [trivial | now right].
Qed.

(** The stored session id is never made up by the page: after any
    sequence of actions it is the id the page started with or the id of a
    response of the server. *)
Lemma stored_id_comes_from_server (actions : list (Action (number := number))) :
  forall w,
    PageState.sessionId (World.page (run actions w)) = PageState.sessionId (World.page w) \/
    exists response,
      In (Fulfilled response) (World.post_script w) /\
      SearchResponse.session_id (AxiosResponse.data response)
      = PageState.sessionId (World.page (run actions w)).
Proof.
  induction actions as [|a actions IH]; intros w; cbn [run]; [now left|].
  assert (Hscript : forall x, In x (World.post_script (snd (dispatch a w))) ->
                              In x (World.post_script w)).
  { intros x. rewrite dispatch_post_script.
    destruct (is_submission a); [apply In_tl | trivial]. }
  destruct (IH (snd (dispatch a w))) as [Hsame | (response & Hin & Hid)].
  - rewrite Hsame, dispatch_sessionId.
    destruct (next_settlement (World.post_script w)) as [response|reason] eqn:Hnext;
      [|destruct a; now left].
    destruct a; try (now left);
      right; exists response; (split; [now apply next_settlement_In | reflexivity]).
  - right. exists response. split; [now apply Hscript | exact Hid].
Qed.

(** Every submission sends exactly one request, which carries either no
    session id or the id stored at that moment. *)
Lemma submission_sends_stored_id a w :
  is_submission a = true ->
  exists call,
    World.network (snd (dispatch a w)) = World.network w ++ [call] /\
    (sent_session call = None \/
     sent_session call = Some (PageState.sessionId (World.page w))).
Proof.
  intros Hsub.
  destruct a; try discriminate Hsub;
    rewrite dispatch_snd; unfold world_after, request_of;
    try destruct (truthy (PageState.sessionId (World.page w)));
    cbn [World.network]; eexists; (split; [reflexivity|]);
    solve [now left | now right].
Qed.

Lemma turns_reuse_stored_id w first response rest
    (turns : list (Turn (number := number))) s :
  stores_session_id first ->
  World.post_script w = Fulfilled response :: rest ->
  SearchResponse.session_id (AxiosResponse.data response) = s ->
  s <> EmptyString ->
  keeps_session s rest ->
  PageState.sessionId (World.page (snd (dispatch first w))) = s /\
  PageState.sessionId
    (World.page (run (map turn_action turns) (snd (dispatch first w)))) = s /\
  exists calls,
    World.network (run (map turn_action turns) (snd (dispatch first w)))
    = World.network (snd (dispatch first w)) ++ calls /\
    Forall (is_refine_with s) calls /\
    length calls = length turns.
Proof.
  intros Hstores Hscript Hreceived Hnonempty Hkeeps.
  assert (Hid1 : PageState.sessionId (World.page (snd (dispatch first w))) = s).
  { rewrite dispatch_sessionId, Hscript. cbn [next_settlement].
    destruct first; try exact Hreceived; contradiction. }
  assert (Hscript1 : World.post_script (snd (dispatch first w)) = rest).
  { rewrite dispatch_post_script, Hscript.
    destruct first; try reflexivity; contradiction. }
  split; [exact Hid1|].
  apply run_reuses_stored_id; try assumption.
  - now apply truthy_nonempty.
  - now rewrite Hscript1.
Qed.

(** C1, as the page implements it.  The page never invents or alters a
    session id: each request carries either no id or the id stored at that
    moment, and the stored id is the one the page started with (the empty
    string) or the id of a response.  Once the response to an initial
    search or to a chat submission has brought a non-empty id, and for as
    long as the later responses carry that same id, the id stays stored and
    every later turn of the user (chat message, suggestion click,
    refinement) sends one refine request that carries it unchanged. *)
Theorem session_id_discipline :
  (forall (actions : list (Action (number := number))) w,
      PageState.sessionId (World.page (run actions w)) = PageState.sessionId (World.page w) \/
      exists response,
        In (Fulfilled response) (World.post_script w) /\
        SearchResponse.session_id (AxiosResponse.data response)
        = PageState.sessionId (World.page (run actions w))) /\
  (forall a w,
      is_submission a = true ->
      exists call,
        World.network (snd (dispatch a w)) = World.network w ++ [call] /\
        (sent_session call = None \/
         sent_session call = Some (PageState.sessionId (World.page w)))) /\
  (forall w first response rest (turns : list (Turn (number := number))) s,
      stores_session_id first ->
      World.post_script w = Fulfilled response :: rest ->
      SearchResponse.session_id (AxiosResponse.data response) = s ->
      s <> EmptyString ->
      keeps_session s rest ->
      PageState.sessionId (World.page (snd (dispatch first w))) = s /\
      PageState.sessionId
        (World.page (run (map turn_action turns) (snd (dispatch first w)))) = s /\
      exists calls,
        World.network (run (map turn_action turns) (snd (dispatch first w)))
        = World.network (snd (dispatch first w)) ++ calls /\
        Forall (is_refine_with s) calls /\
        length calls = length turns).
Proof.
  split; [exact stored_id_comes_from_server|].
  split; [exact submission_sends_stored_id | exact turns_reuse_stored_id].
Qed.

End SessionProperties.

(** ** The session-id invariant on concrete sessions *)

(** The requests of a session that starts in the refinement panel: the
    refine request carries the empty id, its response brings [s1], and the
    chat message that follows is sent as a search without id. *)
Example requests_after_refinement_first :
  map fst
      (World.network
         (run (session Missing [Refinement example_options; Chat "in black"])
              (example_page_load [answers "s1"; answers "s1"])))
  = [ApiCall.mk POST "/refine"
       (Some (SearchRequest.mk
                "Refine my search with budget between $20 and $100 including features: wireless with verified reviews only"
                (Some EmptyString)
                (Some (PriceRange.mk_optional (Some 20%Z) (Some 100%Z)))
                (Some ["wireless"%string])
                None));
     ApiCall.mk POST "/search"
       (Some (SearchRequest.mk "in black" None None None None))]
  /\
  PageState.sessionId
    (World.page
       (run (session Missing [Refinement example_options])
            (example_page_load [answers "s1"; answers "s1"])))
  = EmptyString.
Proof.
  split; vm_compute; reflexivity.
Qed.

(** C1 does not hold as a property of every network log.  Three sessions:
    a refinement applied on a page without session id is answered with the
    id [s1], yet the chat message that follows sends a search request
    without id; the server answers a refine request of session [s1] with
    the id [s2], and the next request carries [s2], not [s1]; the server
    answers with the empty id, and the next request carries no id. *)
Lemma session_id_not_always_reused :
  ~ session_id_always_reused
      (World.network
         (run (session Missing [Refinement example_options; Chat "in black"])
              (example_page_load [answers "s1"; answers "s1"])))
  /\
  ~ session_id_always_reused
      (World.network
         (run (session (Single "headphones") [Chat "in black"; Chat "under $50"])
              (example_page_load [answers "s1"; answers "s2"; answers "s2"])))
  /\
  ~ session_id_always_reused
      (World.network
         (run (session (Single "headphones") [Chat "in black"])
              (example_page_load [answers EmptyString; answers "s1"]))).
Proof.
  repeat split; intros Hreused;
    remember (World.network _) as log eqn:Hlog; vm_compute in Hlog; subst log.
  - pose proof (Hreused [] _ [] _ [] "s1"%string eq_refl
                  (ex_intro _ _ (ex_intro _ _ (conj eq_refl (conj eq_refl eq_refl)))))
      as Hsent.
    discriminate Hsent.
  - pose proof (Hreused [] _ [_] _ [] "s1"%string eq_refl
                  (ex_intro _ _ (ex_intro _ _ (conj eq_refl (conj eq_refl eq_refl)))))
      as Hsent.
    discriminate Hsent.
  - pose proof (Hreused [] _ [] _ [] EmptyString eq_refl
                  (ex_intro _ _ (ex_intro _ _ (conj eq_refl (conj eq_refl eq_refl)))))
      as Hsent.
    discriminate Hsent.
Qed.

(** ** The theorems at concrete inputs *)

Lemma api_failure_is_generic_witness :
  next_settlement (World.post_script (example_page_load [Rejected server_error]))
  = Rejected server_error /\
  (fst (searchProducts example_request (example_page_load [Rejected server_error]))
   = Abrupt (Error "Failed to search products") /\
   fst (refineSearch example_request (example_page_load [Rejected server_error]))
   = Abrupt (Error "Failed to refine search") /\
   Error "Failed to search products" <> Error "Failed to refine search").
Proof.
  split; [reflexivity|].
  apply (@api_failure_is_generic Z (example_page_load [Rejected server_error])
           example_request server_error).
  reflexivity.
Defined.

Lemma healthCheck_never_throws_witness :
  fst (healthCheck healthy_page_load) = Normal true /\
  fst (healthCheck (example_page_load [])) = Normal false.
Proof.
  split.
  - destruct (healthCheck_never_throws healthy_page_load) as (healthy & Hrun & Hiff & _).
    rewrite Hrun. f_equal. apply Hiff.
    eexists; eexists; repeat split; reflexivity.
  - destruct (healthCheck_never_throws (example_page_load []))
      as (healthy & Hrun & _ & Hrejected).
    rewrite Hrun. f_equal. apply (Hrejected timeout_exceeded). reflexivity.
Defined.

Lemma handleSendMessage_success_witness :
  World.post_script (example_page_load [answers "s1"]) = [answers "s1"] /\
  PageState.products
    (World.page (snd (dispatch (SendMessage "wireless headphones")
                               (example_page_load [answers "s1"]))))
  = [example_product] /\
  PageState.suggestions
    (World.page (snd (dispatch (SendMessage "wireless headphones")
                               (example_page_load [answers "s1"]))))
  = ["Add brand preference"; "Adjust price range"]%string.
Proof.
  split; [reflexivity|].
  pose proof (@handleSendMessage_success Z _ (example_page_load [answers "s1"])
                "wireless headphones" _ [] eq_refl) as (_ & Hproducts & Hsuggestions & _).
  split; [exact Hproducts | exact Hsuggestions].
Defined.

Lemma failed_call_keeps_products_witness :
  is_submission (SendMessage (number := Z) "wireless headphones") = true /\
  next_settlement (World.post_script (example_page_load [Rejected server_error]))
  = Rejected server_error /\
  PageState.products
    (World.page (snd (dispatch (SendMessage "wireless headphones")
                               (example_page_load [Rejected server_error]))))
  = PageState.products (World.page (example_page_load [Rejected server_error])) /\
  PageState.messages
    (World.page (snd (dispatch (SendMessage "wireless headphones")
                               (example_page_load [Rejected server_error]))))
  = [user_message (example_page_load [Rejected server_error]) "wireless headphones";
     reply_message (example_page_load [Rejected server_error])
       "Sorry, I encountered an error. Please try rephrasing your request." None].
Proof.
  split; [reflexivity|]. split; [reflexivity|].
  pose proof (@failed_call_keeps_products Z _ (example_page_load [Rejected server_error])
                (SendMessage "wireless headphones") server_error eq_refl eq_refl)
    as (Hproducts & _ & _ & Hmessages & _).
  split; [exact Hproducts | exact Hmessages].
Defined.

Lemma apply_refines_without_session_witness :
  PageState.sessionId (World.page (example_page_load [answers "s1"])) = EmptyString /\
  (exists request outcome,
      World.network (snd (dispatch (ApplyRefinements example_options)
                                   (example_page_load [answers "s1"])))
      = World.network (example_page_load [answers "s1"])
          ++ [(ApiCall.mk POST "/refine" (Some request), outcome)] /\
      SearchRequest.session_id request = Some EmptyString) /\
  (exists request outcome,
      World.network (snd (dispatch (SendMessage "wireless headphones")
                                   (example_page_load [answers "s1"])))
      = World.network (example_page_load [answers "s1"])
          ++ [(ApiCall.mk POST "/search" (Some request), outcome)] /\
      SearchRequest.session_id request = None).
Proof.
  split; [reflexivity|].
  apply (proj2 (@apply_refines_without_session Z _ (example_page_load [answers "s1"])
                  example_options "wireless headphones")).
  reflexivity.
Defined.

Lemma session_id_discipline_witness :
  stores_session_id (SendMessage (number := Z) "headphones") /\
  World.post_script (example_page_load example_session_script)
  = answers "s1" :: tl example_session_script /\
  "s1"%string <> EmptyString /\
  keeps_session "s1" (tl example_session_script) /\
  PageState.sessionId
    (World.page (run (map turn_action example_turns)
                     (snd (dispatch (SendMessage "headphones")
                                    (example_page_load example_session_script)))))
  = "s1"%string /\
  exists calls,
    World.network (run (map turn_action example_turns)
                       (snd (dispatch (SendMessage "headphones")
                                      (example_page_load example_session_script))))
    = World.network (snd (dispatch (SendMessage "headphones")
                                   (example_page_load example_session_script)))
        ++ calls /\
    Forall (is_refine_with "s1") calls /\
    length calls = 3.
Proof.
  assert (Hkeeps : keeps_session "s1" (tl example_session_script)).
  { repeat constructor; intros response Hresponse;
      try discriminate Hresponse; injection Hresponse as <-; reflexivity. }
  split; [exact I|]. split; [reflexivity|]. split; [discriminate|].
  split; [exact Hkeeps|].
  exact (proj2 (proj2 (proj2 (@session_id_discipline Z _))
                  (example_page_load example_session_script)
                  (SendMessage "headphones") _ (tl example_session_script)
                  example_turns "s1"%string I eq_refl eq_refl
                  ltac:(discriminate) Hkeeps)).
Defined.

(** * Further properties of the page and of its components *)

(** ** Trimming *)

Section TrimProperties.
Variable is_white_space : ascii -> bool.

Lemma trimStart_first (s : string) c :
  first_char (trimStart is_white_space s) = Some c -> is_white_space c = false.
Proof.
  induction s as [|d s IH]; cbn; [discriminate|].
  destruct (is_white_space d) eqn:Hd; [exact IH|].
  cbn. intros [= <-]. exact Hd.
Qed.

Lemma trimStart_fixed (s : string) :
  (forall c, first_char s = Some c -> is_white_space c = false) -> trimStart is_white_space s = s.
Proof.
  destruct s as [|d s]; cbn; [reflexivity|].
  intros H. now rewrite (H d eq_refl).
Qed.

Lemma trimEnd_first (s : string) c :
  first_char s = Some c -> is_white_space c = false -> first_char (trimEnd is_white_space s) = Some c.
Proof.
  destruct s as [|d s]; cbn; [discriminate|].
  intros [= ->] Hc. destruct (trimEnd is_white_space s); [now rewrite Hc | reflexivity].
Qed.

Lemma trimEnd_first_inv (s : string) c :
  first_char (trimEnd is_white_space s) = Some c -> first_char s = Some c.
Proof.
  destruct s as [|d s]; cbn; [discriminate|].
  destruct (trimEnd is_white_space s);
    [destruct (is_white_space d); [discriminate | trivial] | trivial].
Qed.

Lemma trimEnd_last (s : string) c :
  last_char (trimEnd is_white_space s) = Some c -> is_white_space c = false.
Proof.
  induction s as [|d s IH]; cbn; [discriminate|].
  destruct (trimEnd is_white_space s) as [|e kept] eqn:Hkept.
  - destruct (is_white_space d) eqn:Hd; [discriminate|].
    cbn. intros [= <-]. exact Hd.
  - exact IH.
Qed.

Lemma trimEnd_idempotent (s : string) : trimEnd is_white_space (trimEnd is_white_space s) = trimEnd is_white_space s.
Proof.
  induction s as [|d s IH]; cbn; [reflexivity|].
  destruct (trimEnd is_white_space s) as [|e kept] eqn:Hkept.
  - destruct (is_white_space d) eqn:Hd; cbn; [reflexivity | now rewrite Hd].
  - change (trimEnd is_white_space (String d (String e kept)))
      with (match trimEnd is_white_space (String e kept) with
            | EmptyString => if is_white_space d then EmptyString else String d EmptyString
            | String _ _ as k => String d k
            end).
    now rewrite IH.
Qed.

Lemma trim_first (s : string) c :
  first_char (trim is_white_space s) = Some c -> is_white_space c = false.
Proof.
  intros H. apply trimEnd_first_inv in H. now apply trimStart_first in H.
Qed.

Lemma trim_last (s : string) c :
  last_char (trim is_white_space s) = Some c -> is_white_space c = false.
Proof.
  apply trimEnd_last.
Qed.

Lemma trim_idempotent (s : string) : trim is_white_space (trim is_white_space s) = trim is_white_space s.
Proof.
  unfold trim at 1.
  rewrite (trimStart_fixed (trim is_white_space s)); [apply trimEnd_idempotent|].
  intros c. apply trim_first.
Qed.

End TrimProperties.

(** ** The chat input *)

Section ChatInterfaceProperties.
Context {number : Type} {numeric : JsNumber number}.
Variable is_white_space : ascii -> bool.

(** X1. Submitting the chat form invokes [onSendMessage] at most once,
    and only when the trimmed input is non-empty and the page is not
    loading: the message is then the trimmed input, without white space at
    either end, and the input is cleared.  Otherwise nothing is invoked and
    the input is kept.  The send button is disabled exactly when a submit
    would invoke nothing. *)
Theorem chat_submit_sends_trimmed_text (props : ChatInterface.Props number) inputValue :
  let message := trim is_white_space inputValue in
  let outcome := ChatInterface.handleSubmit is_white_space props inputValue in
  (outcome = ([ChatInterface.onSendMessage message], EmptyString) /\
   message <> EmptyString /\
   ChatInterface.isLoading props = false /\
   (forall c, first_char message = Some c -> is_white_space c = false) /\
   (forall c, last_char message = Some c -> is_white_space c = false) /\
   ChatInterface.send_disabled (ChatInterface.render is_white_space props inputValue) = false)
  \/
  (outcome = ([], inputValue) /\
   (message = EmptyString \/ ChatInterface.isLoading props = true) /\
   ChatInterface.send_disabled (ChatInterface.render is_white_space props inputValue) = true).
Proof.
  intros message outcome. subst outcome.
  unfold ChatInterface.handleSubmit, ChatInterface.render; cbn [ChatInterface.send_disabled].
  fold message.
  destruct (truthy message) eqn:Hmessage; destruct (ChatInterface.isLoading props) eqn:Hloading; cbn.
  - right. repeat split. now right.
  - left. repeat split.
    + now apply truthy_nonempty.
    + apply trim_first.
    + apply trim_last.
  - right. repeat split. now right.
  - right. repeat split. left. destruct message; [reflexivity | discriminate].
Qed.

End ChatInterfaceProperties.

(** ** The refinement panel *)

Section RefinementPanelProperties.
Context {number : Type} {literal : JsNumberLiteral number}.
Variable is_white_space : ascii -> bool.

Lemma includes_In (xs : list string) (x : string) :
  includes xs x = true <-> In x xs.
Proof.
  unfold includes. rewrite existsb_exists. split.
  - intros (y & Hin & Heq). apply String.eqb_eq in Heq. now subst.
  - intros Hin. exists x. split; [exact Hin | apply String.eqb_refl].
Qed.

Lemma includes_false (xs : list string) (x : string) :
  includes xs x = false <-> ~ In x xs.
Proof.
  rewrite <- includes_In. destruct (includes xs x); split; congruence.
Qed.

Local Abbreviation tidy := (tidy is_white_space) (only parsing).

Lemma tidy_filter (keep : string -> bool) (fs : list string) :
  tidy fs -> tidy (filter keep fs).
Proof.
  intros [Hnodup Hall]. split.
  - now apply NoDup_filter.
  - rewrite Forall_forall in *. intros f Hf. apply filter_In in Hf. now apply Hall.
Qed.

Lemma handleAddFeature_tidy (s : RefinementPanel.State number) :
  tidy (RefinementPanel.features s) ->
  tidy (RefinementPanel.features (RefinementPanel.handleAddFeature is_white_space s)).
Proof.
  intros [Hnodup Hall]. unfold RefinementPanel.handleAddFeature.
  destruct (truthy (trim is_white_space (RefinementPanel.newFeature s))) eqn:Htext;
    [|now split].
  destruct (includes (RefinementPanel.features s)
                     (trim is_white_space (RefinementPanel.newFeature s))) eqn:Hknown;
    [now split|].
  cbn [andb negb RefinementPanel.features]. split.
  - apply NoDup_app; [exact Hnodup | repeat constructor; intros [] |].
    intros f Hf [<-|[]]. now apply includes_false in Hknown.
  - apply Forall_app. split; [exact Hall|].
    constructor; [|constructor]. split.
    + now apply truthy_nonempty.
    + apply trim_idempotent.
Qed.

Lemma step_tidy (s : RefinementPanel.State number) e :
  tidy (RefinementPanel.features s) ->
  tidy (RefinementPanel.features (fst (RefinementPanel.step is_white_space s e))).
Proof.
  intros Htidy. destruct e; cbn [RefinementPanel.step fst RefinementPanel.features];
    try exact Htidy.
  - unfold RefinementPanel.handleKeyPress.
    destruct (String.eqb key "Enter"); [now apply handleAddFeature_tidy | exact Htidy].
  - now apply handleAddFeature_tidy.
  - now apply tidy_filter.
Qed.

(** X2. Whatever the user does in the panel that the page mounts (no
    current options yet), its feature list never holds a feature twice,
    never an empty feature, and never one with white space around it. *)
Theorem panel_features_stay_tidy (events : list (RefinementPanel.Event (number := number))) :
  let s := RefinementPanel.after is_white_space events
             (RefinementPanel.initial RefinementOptions.empty) in
  NoDup (RefinementPanel.features s) /\
  Forall (fun f => f <> EmptyString /\ trim is_white_space f = f) (RefinementPanel.features s).
Proof.
  cbn zeta. change (tidy (RefinementPanel.features
                            (RefinementPanel.after is_white_space events
                               (RefinementPanel.initial RefinementOptions.empty)))).
  assert (Hgen : forall s, tidy (RefinementPanel.features s) ->
                           tidy (RefinementPanel.features
                                   (RefinementPanel.after is_white_space events s))).
  { induction events as [|e events IH]; intros s Hs; cbn [RefinementPanel.after];
      [exact Hs | apply IH, step_tidy, Hs]. }
  apply Hgen. split; constructor.
Qed.

(** X3. Removing a feature leaves exactly the other features, in their
    order; and when adding the typed feature has extended the list,
    removing that feature gives the former list back. *)
Theorem remove_undoes_add (s : RefinementPanel.State number) :
  (forall f g,
      In g (RefinementPanel.features (RefinementPanel.handleRemoveFeature f s))
      <-> In g (RefinementPanel.features s) /\ g <> f) /\
  (forall f, ~ In f (RefinementPanel.features s) ->
             RefinementPanel.features (RefinementPanel.handleRemoveFeature f s)
             = RefinementPanel.features s) /\
  (RefinementPanel.features (RefinementPanel.handleAddFeature is_white_space s)
   <> RefinementPanel.features s ->
   RefinementPanel.features
     (RefinementPanel.handleRemoveFeature
        (trim is_white_space (RefinementPanel.newFeature s))
        (RefinementPanel.handleAddFeature is_white_space s))
   = RefinementPanel.features s).
Proof.
  assert (Habsent : forall f fs, ~ In f fs ->
                                 filter (fun g => negb (String.eqb g f)) fs = fs).
  { intros f fs. induction fs as [|g fs IH]; cbn; [reflexivity|].
    intros Hnot. destruct (String.eqb_spec g f) as [->|Hneq]; cbn.
    - exfalso. apply Hnot. now left.
    - f_equal. apply IH. intros Hin. apply Hnot. now right. }
  split; [|split].
  - intros f g. cbn [RefinementPanel.handleRemoveFeature RefinementPanel.features].
    rewrite filter_In. split; intros [Hin Hneq]; (split; [exact Hin|]).
    + intros ->. now rewrite String.eqb_refl in Hneq.
    + now apply negb_true_iff, String.eqb_neq.
  - intros f Hnot. now apply Habsent.
  - unfold RefinementPanel.handleAddFeature.
    destruct (truthy (trim is_white_space (RefinementPanel.newFeature s)));
      [|intros H; now contradiction H].
    destruct (includes (RefinementPanel.features s)
                       (trim is_white_space (RefinementPanel.newFeature s))) eqn:Hknown;
      [intros H; now contradiction H|].
    intros _. cbn [andb negb RefinementPanel.handleRemoveFeature RefinementPanel.features].
    rewrite filter_app. cbn [filter]. rewrite String.eqb_refl. cbn [negb].
    rewrite app_nil_r. apply Habsent. now apply includes_false.
Qed.

End RefinementPanelProperties.

(** ** The API client on both outcomes *)

Section ApiMoreProperties.
Context {number : Type}.
Implicit Types (w : World.t number) (request : SearchRequest.t number).

(** X4. [searchProducts] and [refineSearch] hand exactly one POST request
    to axios, with the body they were given, to [/search] and [/refine]
    respectively, and never touch the state of the page.  A fulfilled
    request returns the data of the response as it is, whatever its status,
    and logs nothing; a rejected one logs one label on the console. *)
Theorem api_posts_once w request :
  let settled := next_settlement (World.post_script w) in
  let searched := searchProducts request w in
  let refined := refineSearch request w in
  World.page (snd searched) = World.page w /\
  World.page (snd refined) = World.page w /\
  World.network (snd searched)
  = World.network w ++ [(ApiCall.mk POST "/search" (Some request), settled_map inl settled)] /\
  World.network (snd refined)
  = World.network w ++ [(ApiCall.mk POST "/refine" (Some request), settled_map inl settled)] /\
  match settled with
  | Fulfilled response =>
      fst searched = Normal (AxiosResponse.data response) /\
      fst refined = Normal (AxiosResponse.data response) /\
      World.console (snd searched) = World.console w /\
      World.console (snd refined) = World.console w
  | Rejected _ =>
      World.console (snd searched) = World.console w ++ ["Search API error:"%string] /\
      World.console (snd refined) = World.console w ++ ["Refine API error:"%string]
  end.
Proof.
  cbv zeta.
  unfold searchProducts, refineSearch, try_catch, bind, ret, throw, console_error, api_post.
  destruct (next_settlement (World.post_script w)) as [response|reason];
    cbn [fst snd World.page World.network World.console];
    repeat split; reflexivity.
Qed.

End ApiMoreProperties.

(** ** More on the search page *)

Section PageMoreProperties.
Context {number : Type} {numeric : JsNumber number}.
Implicit Types (w : World.t number) (a : Action (number := number)).

Ltac effect_of w :=
  rewrite ?dispatch_snd; unfold world_after, page_after, request_of;
  cbv zeta;
  destruct (truthy (PageState.sessionId (World.page w)));
  destruct (next_settlement (World.post_script w)) as [[? ?]|?].

Lemma dispatch_never_throws a w : fst (dispatch a w) = Normal tt.
Proof. now rewrite dispatch_world_after. Qed.

Lemma dispatch_isLoading a w :
  PageState.isLoading (World.page (snd (dispatch a w)))
  = if is_submission a then false else PageState.isLoading (World.page w).
Proof.
  destruct a; effect_of w; reflexivity.
Qed.

Lemma dispatch_uuids a w :
  World.uuid_source (snd (dispatch a w)) = World.uuid_source w /\
  World.uuids_drawn (snd (dispatch a w))
  = if is_submission a then S (S (World.uuids_drawn w)) else World.uuids_drawn w.
Proof.
  destruct a; effect_of w; split; reflexivity.
Qed.

(** The turn of a submission, with what it attaches and shows. *)
Lemma dispatch_turn a w :
  is_submission a = true ->
  exists text attached,
    PageState.messages (World.page (snd (dispatch a w)))
    = transcript_before a (World.page w)
        ++ [user_message w (submitted_text a); reply_message w text attached] /\
    PageState.products (World.page (snd (dispatch a w)))
    = match attached with
      | Some shown => shown
      | None => PageState.products (World.page w)
      end.
Proof.
  intros Hsub.
  destruct a; try discriminate Hsub; effect_of w;
    cbn [World.page PageState.messages PageState.products]; rewrite <- app_assoc;
    eexists; eexists; split; reflexivity.
Qed.

Lemma dispatch_network a w :
  exists calls,
    World.network (snd (dispatch a w)) = World.network w ++ calls /\
    length calls = (if is_submission a then 1 else 0) /\
    Forall is_search_or_refine calls.
Proof.
  destruct a; effect_of w; cbn [World.network is_submission];
    try (exists []; rewrite app_nil_r; repeat split; constructor);
    eexists; (split; [reflexivity|]); (split; [reflexivity|]);
    (constructor; [|constructor]);
    (split; [reflexivity|]); (split; [|discriminate]); cbn; auto.
Qed.

(** X5. On a page that has just been mounted and after any sequence of
    actions, the page is not left loading, however the requests have
    settled, and whatever action comes next completes without throwing. *)
Theorem page_never_left_loading uuid_source clock post_script get_script
    (actions : list (Action (number := number))) a :
  let w := run actions (mount uuid_source clock post_script get_script) in
  PageState.isLoading (World.page w) = false /\
  fst (dispatch a w) = Normal tt.
Proof.
  cbv zeta. split; [|apply dispatch_never_throws].
  assert (Hgen : forall w, PageState.isLoading (World.page w) = false ->
                           PageState.isLoading (World.page (run actions w)) = false).
  { induction actions as [|b actions IH]; intros w Hw; cbn [run]; [exact Hw|].
    apply IH. rewrite dispatch_isLoading. now destruct (is_submission b). }
  now apply Hgen.
Qed.

Lemma skipn_tl {A : Type} (n : nat) (l : list A) : skipn n (tl l) = skipn (S n) l.
Proof.
  destruct l; [now rewrite skipn_nil | reflexivity].
Qed.

(** X6. A sequence of actions, each finished before the next starts,
    sends exactly one request per submission (none for opening the panel,
    none twice), each a POST with a body to [/search] or [/refine], and
    takes as many settlements from the script as it sends requests. *)
Theorem one_request_per_submission (actions : list (Action (number := number))) w :
  exists calls,
    World.network (run actions w) = World.network w ++ calls /\
    length calls = length (filter is_submission actions) /\
    Forall is_search_or_refine calls /\
    World.post_script (run actions w) = skipn (length calls) (World.post_script w).
Proof.
  revert w. induction actions as [|a actions IH]; intros w; cbn [run filter].
  - exists []. rewrite app_nil_r. repeat split; constructor.
  - destruct (IH (snd (dispatch a w))) as (later & Hnet & Hlen & Hall & Hscript).
    destruct (dispatch_network a w) as (now_ & Hnow & Hone & Hnow_all).
    exists (now_ ++ later). rewrite Hnet, Hnow, <- app_assoc.
    rewrite Hscript, dispatch_post_script, length_app, Hlen, Hone.
    destruct (is_submission a); cbn [length Nat.add];
      repeat split; try (now apply Forall_app); try reflexivity.
    apply skipn_tl.
Qed.


Lemma questions_snoc_turn (transcript : list (ChatMessage.t number)) w text answer attached :
  questions (transcript ++ [user_message w text; reply_message w answer attached])
  = questions transcript ++ [text].
Proof.
  unfold questions. rewrite filter_app, map_app. reflexivity.
Qed.

Lemma latest_attached_snoc_turn (transcript : list (ChatMessage.t number)) w text answer attached :
  latest_attached (transcript ++ [user_message w text; reply_message w answer attached])
  = match attached with
    | Some shown => shown
    | None => latest_attached transcript
    end.
Proof.
  unfold latest_attached. rewrite fold_left_app. reflexivity.
Qed.

(** What the turns of the user keep true of the page: the transcript holds
    their texts after the earlier ones, and the product list is the one
    attached to the latest message that has one. *)
Lemma run_turns_transcript (turns : list (Turn (number := number))) :
  forall w,
    PageState.products (World.page w) = latest_attached (PageState.messages (World.page w)) ->
    questions (PageState.messages (World.page (run (map turn_action turns) w)))
    = questions (PageState.messages (World.page w))
        ++ map submitted_text (map turn_action turns) /\
    PageState.products (World.page (run (map turn_action turns) w))
    = latest_attached (PageState.messages (World.page (run (map turn_action turns) w))).
Proof.
  induction turns as [|t turns IH]; intros w Hshown; cbn [map run].
  - rewrite app_nil_r. now split.
  - destruct (dispatch_turn (turn_action t) w) as (answer & attached & Hmessages & Hproducts);
      [now destruct t|].
    replace (transcript_before (turn_action t) (World.page w))
      with (PageState.messages (World.page w)) in Hmessages by now destruct t.
    destruct (IH (snd (dispatch (turn_action t) w))) as [Hquestions Hlatest].
    + rewrite Hproducts, Hmessages, latest_attached_snoc_turn.
      destruct attached; [reflexivity | exact Hshown].
    + split; [|exact Hlatest].
      rewrite Hquestions, Hmessages, questions_snoc_turn, <- app_assoc. reflexivity.
Qed.

(** X7. Through a whole session (the initial search of the URL, then any
    chat messages, suggestion clicks and refinements) the transcript holds
    the texts the user submitted, each once and in order, and the product
    list on the page is the list attached to the latest assistant message
    that carries one; it is empty as long as no request has succeeded. *)
Theorem transcript_and_products_of_session uuid_source clock post_script get_script
    (q : QueryParam) (turns : list (Turn (number := number))) :
  let final := run (session q turns) (mount uuid_source clock post_script get_script) in
  questions (PageState.messages (World.page final)) = map submitted_text (session q turns) /\
  PageState.products (World.page final)
  = latest_attached (PageState.messages (World.page final)).
Proof.
  cbv zeta. unfold session, effect_on_q.
  destruct q as [|value|values]; [| destruct (truthy value) |]; cbn [app run].
  1, 3, 4: apply (run_turns_transcript turns); reflexivity.
  destruct (dispatch_turn (InitialSearch value)
              (mount uuid_source clock post_script get_script) eq_refl)
    as (answer & attached & Hmessages & Hproducts).
  cbn [transcript_before app] in Hmessages.
  destruct (run_turns_transcript turns
              (snd (dispatch (InitialSearch value)
                             (mount uuid_source clock post_script get_script))))
    as [Hquestions Hlatest].
  - rewrite Hproducts, Hmessages. now destruct attached.
  - split; [|exact Hlatest].
    rewrite Hquestions, Hmessages. reflexivity.
Qed.

(** The identifiers of the transcript are tokens of distinct draws. *)
Lemma run_message_ids (actions : list (Action (number := number))) :
  forall w drawn,
    map (fun m => ChatMessage.id m) (PageState.messages (World.page w))
    = map (World.uuid_source w) drawn ->
    NoDup drawn ->
    Forall (fun i => i < World.uuids_drawn w) drawn ->
    exists drawn',
      map (fun m => ChatMessage.id m) (PageState.messages (World.page (run actions w)))
      = map (World.uuid_source w) drawn' /\
      NoDup drawn'.
Proof.
  induction actions as [|a actions IH]; intros w drawn Hids Hnodup Hbelow; cbn [run].
  - now exists drawn.
  - destruct (dispatch_uuids a w) as [Hsource Hdrawn].
    destruct (is_submission a) eqn:Hsub.
    + destruct (dispatch_turn a w Hsub) as (answer & attached & Hmessages & _).
      set (d := World.uuids_drawn w) in *.
      set (kept := match a with InitialSearch _ => [] | _ => drawn end).
      assert (Hkept : map (fun m => ChatMessage.id m) (transcript_before a (World.page w))
                      = map (World.uuid_source w) kept)
        by (destruct a; try exact Hids; reflexivity).
      assert (Hkept_nodup : NoDup kept) by (destruct a; try exact Hnodup; constructor).
      assert (Hkept_below : Forall (fun i => i < d) kept)
        by (destruct a; try exact Hbelow; constructor).
      rewrite Forall_forall in Hkept_below.
      destruct (IH (snd (dispatch a w)) (kept ++ [d; S d])) as (drawn' & Hids' & Hnodup').
      * rewrite Hsource, Hmessages, !map_app, Hkept. reflexivity.
      * apply NoDup_app; [exact Hkept_nodup | |].
        -- constructor; [intros [H|[]]; lia | repeat constructor; intros []].
        -- intros i Hi [<-|[<-|[]]]; apply Hkept_below in Hi; lia.
      * rewrite Hdrawn. apply Forall_app. split.
        -- apply Forall_forall. intros i Hi. apply Hkept_below in Hi. lia.
        -- repeat constructor; lia.
      * exists drawn'. rewrite <- Hsource. now split.
    + destruct a; try discriminate Hsub.
      destruct (IH (snd (dispatch RefineSearchClick w)) drawn) as (drawn' & Hids' & Hnodup');
        try assumption.
      exists drawn'. now split.
Qed.

(** X8. When [uuidv4] never returns the same token twice, the messages of
    the transcript have pairwise distinct identifiers after any sequence
    of actions on a mounted page. *)
Theorem message_ids_are_distinct uuid_source clock post_script get_script
    (actions : list (Action (number := number))) :
  (forall i j : nat, uuid_source i = uuid_source j -> i = j) ->
  NoDup (map (fun m => ChatMessage.id m)
             (PageState.messages
                (World.page (run actions (mount uuid_source clock post_script get_script))))).
Proof.
  intros Hinjective.
  destruct (run_message_ids actions
              (mount uuid_source clock post_script get_script) (drawn := []))
    as (drawn & Hids & Hnodup); try constructor.
  rewrite Hids. cbn [mount World.uuid_source].
  clear Hids. induction Hnodup as [|i drawn Hnotin _ IH]; cbn [map]; constructor; [|exact IH].
  intros Hin. apply in_map_iff in Hin. destruct Hin as (j & Heq & Hj).
  apply Hinjective in Heq. now subst.
Qed.

(** X9. A rejected refinement is not rolled back: the options are stored
    as the current ones and the panel is closed although the request has
    failed, while the product list, the suggestions and the session id are
    those from before. *)
Theorem rejected_refinement_keeps_options w (options : RefinementOptions.partial number) reason :
  next_settlement (World.post_script w) = Rejected reason ->
  let w' := snd (dispatch (ApplyRefinements options) w) in
  PageState.refinementOptions (World.page w') = options /\
  PageState.isRefinementOpen (World.page w') = false /\
  PageState.products (World.page w') = PageState.products (World.page w) /\
  PageState.suggestions (World.page w') = PageState.suggestions (World.page w) /\
  PageState.sessionId (World.page w') = PageState.sessionId (World.page w).
Proof.
  intros Hrejected. cbv zeta.
  rewrite dispatch_snd. unfold world_after, page_after, request_of. cbv zeta.
  rewrite Hrejected. repeat split; reflexivity.
Qed.


End PageMoreProperties.

(** ** What the page shows, and how its components reach it *)

Section ViewProperties.
Context {number : Type} {numeric : JsNumber number} {literal : JsNumberLiteral number}.
Variable is_white_space : ascii -> bool.
Implicit Types (w : World.t number) (a : Action (number := number)).

(** X12. A fulfilled response without products is no error: the page
    shows no card and no count but the placeholder, and the transcript ends
    with the answer built from the response, carrying the empty list, not
    with an apology. *)
Theorem empty_response_is_not_an_error w a response rest :
  is_submission a = true ->
  World.post_script w = Fulfilled response :: rest ->
  SearchResponse.products (AxiosResponse.data response) = [] ->
  let w' := snd (dispatch a w) in
  product_column (World.page w') = mk_column None true false [] /\
  PageState.messages (World.page w')
  = transcript_before a (World.page w)
      ++ [user_message w (submitted_text a);
          reply_message w (answer_of a (AxiosResponse.data response)) (Some [])] /\
  answer_of a (AxiosResponse.data response) <> apology_of a.
Proof.
  intros Hsub Hscript Hempty. cbv zeta.
  rewrite dispatch_snd. unfold world_after, page_after, product_column. cbv zeta.
  rewrite Hscript. cbn [next_settlement].
  destruct a; try discriminate Hsub; unfold request_of;
    try destruct (truthy (PageState.sessionId (World.page w)));
    cbn [World.page PageState.messages PageState.products PageState.isLoading];
    rewrite Hempty; rewrite <- app_assoc;
    (repeat split; try reflexivity); cbn; discriminate.
Qed.

(** X13. Whatever state the panel is in, applying it sends one refine
    request with the price bounds of the panel and with its feature list
    as [features_to_add] (an empty list is sent as such, not left out), and
    the instruction always has the price clause right after its opening. *)
Theorem panel_apply_sends_price_clause (s : RefinementPanel.State number) w :
  exists outcome tail,
    World.network (snd (dispatch (apply_from_panel s) w))
    = World.network w
        ++ [(ApiCall.mk POST "/refine"
               (Some (SearchRequest.mk
                        ("Refine my search with budget between $"
                           ++ Number_toString (PriceRange.min (RefinementPanel.priceRange s))
                           ++ " and $"
                           ++ Number_toString (PriceRange.max (RefinementPanel.priceRange s))
                           ++ tail)
                        (Some (PageState.sessionId (World.page w)))
                        (Some (PriceRange.widen (RefinementPanel.priceRange s)))
                        (Some (RefinementPanel.features s))
                        None)),
             outcome)].
Proof.
  rewrite dispatch_snd. unfold world_after, request_of, apply_from_panel.
  cbn [World.network]. unfold refinement_request, panel_options.
  cbn [RefinementOptions.price_range RefinementOptions.features option_map].
  eexists. exists (concat_present [feature_clause (panel_options (RefinementPanel.priceRange s)
                                                     (RefinementPanel.features s)
                                                     (RefinementPanel.verifiedOnly s));
                                   verified_clause (panel_options (RefinementPanel.priceRange s)
                                                      (RefinementPanel.features s)
                                                      (RefinementPanel.verifiedOnly s))]).
  do 4 f_equal.
  unfold refinementQuery, feature_clause, verified_clause, panel_options.
  cbn [RefinementOptions.price_range RefinementOptions.features
       RefinementOptions.verified_reviews_only].
  destruct (RefinementPanel.features s) as [|f fs]; destruct (RefinementPanel.verifiedOnly s);
    cbn [length Nat.ltb Nat.leb concat_present];
    rewrite ?string_append_assoc, ?string_append_empty_r; cbn;
    rewrite ?string_append_assoc, ?string_append_empty_r; reflexivity.
Qed.

(** X14. A chat input that is blank once trimmed, or a page that is
    loading, makes a submit change nothing: no message, no request, the
    input kept.  Otherwise the input is cleared, the user message holds the
    trimmed text and one request is sent whose query is that text. *)
Theorem chat_submission_reaches_page inputValue w :
  let message := trim is_white_space inputValue in
  let after := submit_from_chat is_white_space inputValue w in
  ((message = EmptyString \/ PageState.isLoading (World.page w) = true) /\
   after = (w, inputValue))
  \/
  (message <> EmptyString /\
   PageState.isLoading (World.page w) = false /\
   snd after = EmptyString /\
   exists answer attached call request outcome,
     PageState.messages (World.page (fst after))
     = PageState.messages (World.page w)
         ++ [user_message w message; reply_message w answer attached] /\
     World.network (fst after) = World.network w ++ [(call, outcome)] /\
     ApiCall.body call = Some request /\
     SearchRequest.query request = message).
Proof.
  intros message after. subst after.
  unfold submit_from_chat, ChatInterface.handleSubmit, chat_props.
  cbn [ChatInterface.isLoading]. fold message.
  destruct (truthy message) eqn:Hmessage;
    destruct (PageState.isLoading (World.page w)) eqn:Hloading;
    cbn [andb negb fst snd map run chat_action].
  - left. split; [now right | reflexivity].
  - right. split; [now apply truthy_nonempty|]. split; [reflexivity|]. split; [reflexivity|].
    rewrite dispatch_snd. unfold world_after, page_after, request_of. cbv zeta.
    cbn [World.page World.network PageState.messages transcript_before submitted_text].
    rewrite <- app_assoc.
    destruct (truthy (PageState.sessionId (World.page w)));
      destruct (next_settlement (World.post_script w));
      do 5 eexists; repeat split; reflexivity.
  - left. split; [left; destruct message; [reflexivity | discriminate] | reflexivity].
  - left. split; [left; destruct message; [reflexivity | discriminate] | reflexivity].
Qed.

End ViewProperties.

(** ** Staying in a session *)

Section StayingInSession.
Context {number : Type} {numeric : JsNumber number}.
Implicit Types (w : World.t number).

(** X15. Once the page stores a non-empty session id, and as long as the
    server answers with non-empty ids (the same one or not), the turns of
    the user never fall back to a search request: every request goes to
    [/refine] and carries a non-empty session id, and a non-empty id stays
    stored. *)
Theorem turns_never_fall_back_to_search w (turns : list (Turn (number := number))) :
  PageState.sessionId (World.page w) <> EmptyString ->
  Forall (fun settled =>
            forall response,
              settled = Fulfilled response ->
              SearchResponse.session_id (AxiosResponse.data response) <> EmptyString)
         (World.post_script w) ->
  PageState.sessionId (World.page (run (map turn_action turns) w)) <> EmptyString /\
  exists calls,
    World.network (run (map turn_action turns) w) = World.network w ++ calls /\
    length calls = length turns /\
    Forall (fun call =>
              ApiCall.url (fst call) = "/refine"%string /\
              exists s, sent_session call = Some s /\ s <> EmptyString)
           calls.
Proof.
  revert w. induction turns as [|t turns IH]; intros w Hid Hscript; cbn [map run length].
  - split; [exact Hid|]. exists []. rewrite app_nil_r. repeat split; constructor.
  - assert (Hsub : is_submission (turn_action t) = true) by now destruct t.
    assert (Hnot : is_initial_search (turn_action t) = false) by now destruct t.
    destruct (dispatch_refines_with_stored_id (turn_action t) w Hsub Hnot)
      as (sent & Hnet & _ & Hurl & Hsent); [now apply truthy_nonempty|].
    destruct (IH (snd (dispatch (turn_action t) w))) as (Hid' & calls & Hnet' & Hlen & Hall).
    + rewrite dispatch_sessionId.
      destruct (next_settlement (World.post_script w)) as [response|reason] eqn:Hnext;
        [|now destruct t].
      assert (Hresponse : SearchResponse.session_id (AxiosResponse.data response)
                          <> EmptyString).
      { destruct (World.post_script w) as [|settled script]; [discriminate Hnext|].
        inversion Hscript as [|? ? Hhead _]. apply Hhead. exact Hnext. }
      now destruct t.
    + rewrite dispatch_post_script, Hsub.
      destruct (World.post_script w); [exact Hscript | now inversion Hscript].
    + split; [exact Hid'|].
      exists (sent :: calls). rewrite Hnet', Hnet, <- app_assoc.
      split; [reflexivity|]. split; [cbn [length]; now rewrite Hlen|].
      constructor; [|exact Hall]. split; [exact Hurl|].
      exists (PageState.sessionId (World.page w)). now split.
Qed.

End StayingInSession.

(** ** The further properties at concrete inputs *)

Lemma tally_injective (i j : nat) : tally i = tally j -> i = j.
Proof.
  revert j. induction i as [|i IH]; intros [|j]; cbn; try discriminate; [reflexivity|].
  intros [= H]. f_equal. now apply IH.
Qed.

Lemma remove_undoes_add_witness :
  RefinementPanel.features (RefinementPanel.handleAddFeature latin1_white_space example_panel)
  <> RefinementPanel.features example_panel /\
  RefinementPanel.features (RefinementPanel.handleAddFeature latin1_white_space example_panel)
  = ["waterproof"; "wireless"]%string /\
  RefinementPanel.features
    (RefinementPanel.handleRemoveFeature
       (trim latin1_white_space (RefinementPanel.newFeature example_panel))
       (RefinementPanel.handleAddFeature latin1_white_space example_panel))
  = RefinementPanel.features example_panel.
Proof.
  split; [discriminate|]. split; [reflexivity|].
  apply (proj2 (proj2 (remove_undoes_add latin1_white_space example_panel))).
  discriminate.
Defined.

Lemma message_ids_are_distinct_witness :
  (forall i j : nat, tally i = tally j -> i = j) /\
  NoDup (map (fun m => ChatMessage.id m)
             (PageState.messages
                (World.page
                   (run [SendMessage "headphones"; RefineSearchClick;
                         ApplyRefinements example_options; SuggestionClick "Adjust price range"]
                        (mount tally example_clock example_session_script []))))).
Proof.
  split; [exact tally_injective|].
  apply (@message_ids_are_distinct Z _ tally example_clock example_session_script []).
  exact tally_injective.
Defined.

Lemma rejected_refinement_keeps_options_witness :
  next_settlement (World.post_script (example_page_load [Rejected server_error]))
  = Rejected server_error /\
  PageState.refinementOptions
    (World.page (snd (dispatch (ApplyRefinements example_options)
                               (example_page_load [Rejected server_error]))))
  = example_options /\
  PageState.isRefinementOpen
    (World.page (snd (dispatch (ApplyRefinements example_options)
                               (example_page_load [Rejected server_error]))))
  = false /\
  PageState.products
    (World.page (snd (dispatch (ApplyRefinements example_options)
                               (example_page_load [Rejected server_error]))))
  = [].
Proof.
  split; [reflexivity|].
  pose proof (@rejected_refinement_keeps_options Z _
                (example_page_load [Rejected server_error]) example_options
                server_error eq_refl) as (Hoptions & Hopen & Hproducts & _).
  split; [exact Hoptions|]. split; [exact Hopen | exact Hproducts].
Defined.

Lemma empty_response_is_not_an_error_witness :
  is_submission (SendMessage (number := Z) "unicorn saddle") = true /\
  World.post_script (example_page_load [Fulfilled empty_response])
  = [Fulfilled empty_response] /\
  SearchResponse.products (AxiosResponse.data empty_response) = [] /\
  product_column
    (World.page (snd (dispatch (SendMessage "unicorn saddle")
                               (example_page_load [Fulfilled empty_response]))))
  = mk_column None true false [].
Proof.
  split; [reflexivity|]. split; [reflexivity|]. split; [reflexivity|].
  exact (proj1 (@empty_response_is_not_an_error Z _
                  (example_page_load [Fulfilled empty_response])
                  (SendMessage "unicorn saddle") empty_response []
                  eq_refl eq_refl eq_refl)).
Defined.

Lemma turns_never_fall_back_to_search_witness :
  PageState.sessionId
    (World.page (snd (dispatch (SendMessage "headphones")
                               (example_page_load [answers "s1"; answers "s2"; answers "s3"]))))
  <> EmptyString /\
  exists calls,
    World.network
      (run (map turn_action [Chat "in black"; Suggestion "Adjust price range"])
           (snd (dispatch (SendMessage "headphones")
                          (example_page_load [answers "s1"; answers "s2"; answers "s3"]))))
    = World.network
        (snd (dispatch (SendMessage "headphones")
                       (example_page_load [answers "s1"; answers "s2"; answers "s3"])))
        ++ calls /\
    length calls = 2 /\
    Forall (fun call =>
              ApiCall.url (fst call) = "/refine"%string /\
              exists s, sent_session call = Some s /\ s <> EmptyString)
           calls.
Proof.
  split; [discriminate|].
  apply (@turns_never_fall_back_to_search Z _
           (snd (dispatch (SendMessage "headphones")
                          (example_page_load [answers "s1"; answers "s2"; answers "s3"])))
           [Chat "in black"; Suggestion "Adjust price range"]).
  - discriminate.
  - repeat constructor; intros response Hresponse; injection Hresponse as <-; discriminate.
Defined.

(** * Submissions that overlap: properties *)

Section OverlapProperties.
Context {number : Type} {numeric : JsNumber number}.
Implicit Types (w : World.t number) (a : Action (number := number))
               (live : Live.t number).

(** The two parts of a handler, run one after the other, are the handler. *)
Lemma handleInitialSearch_in_two_parts render query w :
  handleInitialSearch render query w
  = bind (handleInitialSearch_starts render query) handleInitialSearch_resumes w.
Proof. reflexivity. Qed.

Lemma handleSendMessage_in_two_parts render message w :
  handleSendMessage render message w
  = bind (handleSendMessage_starts render message) handleSendMessage_resumes w.
Proof.
  unfold handleSendMessage, handleSendMessage_starts, handleSendMessage_resumes.
  destruct (truthy (PageState.sessionId render)); reflexivity.
Qed.

Lemma handleApplyRefinements_in_two_parts render options w :
  handleApplyRefinements render options w
  = bind (handleApplyRefinements_starts render options) handleApplyRefinements_resumes w.
Proof. reflexivity. Qed.

(** A handler that starts on an idle page and whose request settles next
    leaves what [dispatch] leaves. *)
Lemma settle_after_start a w :
  settle 0 (start a (Live.idle w)) = Live.idle (snd (dispatch a w)).
Proof.
  destruct w as [[messages products isLoading sessionId suggestions isOpen options]
                   uuid_source uuids_drawn clock clock_reads console network
                   post_script get_script].
  destruct a; destruct sessionId as [|c sessionId];
    destruct post_script as [|[[status data]|reason] post_script];
    vm_compute; reflexivity.
Qed.

(** Handlers that run one at a time are the runs of [run]. *)
Lemma play_one_at_a_time (actions : list (Action (number := number))) :
  forall w, play (one_at_a_time actions) (Live.idle w) = Live.idle (run actions w).
Proof.
  induction actions as [|a actions IH]; intros w; [reflexivity|].
  cbn [one_at_a_time flat_map app play moment run].
  rewrite settle_after_start. apply IH.
Qed.

(** Starting a handler: a submission adds its user message to the
    transcript it starts from and waits for its request; opening the panel
    adds nothing and does not wait. *)
Lemma start_effect a live :
  exists waiting,
    Live.flights (start a live) = Live.flights live ++ waiting /\
    length waiting = (if is_submission a then 1 else 0) /\
    PageState.messages (World.page (Live.world (start a live)))
    = if is_submission a
      then transcript_before a (World.page (Live.world live))
             ++ [user_message (Live.world live) (submitted_text a)]
      else PageState.messages (World.page (Live.world live)).
Proof.
  destruct a;
    try (eexists; (split; [|split]); lazy; reflexivity).
  exists []. rewrite app_nil_r. repeat split.
Qed.

(** Resuming a handler adds one assistant message, however the request
    has settled. *)
Lemma resumes_appends_answer (flight : Flight.t number) w :
  exists answer,
    PageState.messages (World.page (snd (resumes flight w)))
    = PageState.messages (World.page w) ++ [answer] /\
    ChatMessage.type answer = assistant.
Proof.
  destruct flight as [[] []];
    destruct w as [page uuid_source uuids_drawn clock clock_reads console network
                     [|[[status data]|reason] post_script] get_script];
    eexists; split; lazy; reflexivity.
Qed.


Lemma messages_of_snoc (type : MessageType) (transcript : list (ChatMessage.t number)) m :
  length (messages_of type (transcript ++ [m]))
  = length (messages_of type transcript)
    + match ChatMessage.type m, type with
      | user, user | assistant, assistant => 1
      | _, _ => 0
      end.
Proof.
  unfold messages_of. rewrite filter_app, length_app. cbn [filter].
  destruct (ChatMessage.type m), type; reflexivity.
Qed.

Lemma messages_of_both (transcript : list (ChatMessage.t number)) :
  length transcript
  = length (messages_of user transcript) + length (messages_of assistant transcript).
Proof.
  induction transcript as [|m transcript IH]; [reflexivity|].
  unfold messages_of in *. cbn [filter length].
  destruct (ChatMessage.type m); cbn [length]; lia.
Qed.

Lemma settle_flights i live (flight : Flight.t number) :
  nth_error (Live.flights live) i = Some flight ->
  S (length (Live.flights (settle i live))) = length (Live.flights live).
Proof.
  intros Hnth. unfold settle. rewrite Hnth. cbn [Live.flights].
  assert (Hi : i < length (Live.flights live))
    by (apply nth_error_Some; congruence).
  rewrite length_app, length_firstn, length_skipn. lia.
Qed.

(** The count that overlapping handlers keep: every started submission
    has its user message in the transcript, and either its assistant
    message or a handler still waiting. *)
Lemma play_counts (moments : list (Moment (number := number))) :
  forallb (fun m => negb (starts_initial_search m)) moments = true ->
  forall live,
    length (messages_of user (PageState.messages (World.page (Live.world (play moments live)))))
    = length (messages_of user (PageState.messages (World.page (Live.world live))))
      + length (filter starts_submission moments) /\
    length (messages_of assistant
              (PageState.messages (World.page (Live.world (play moments live)))))
      + length (Live.flights (play moments live))
    = length (messages_of assistant (PageState.messages (World.page (Live.world live))))
      + length (Live.flights live)
      + length (filter starts_submission moments).
Proof.
  induction moments as [|m moments IH]; intros Hlater live; cbn [play filter].
  - cbn [length]. lia.
  - cbn [forallb] in Hlater. apply andb_true_iff in Hlater. destruct Hlater as [Hm Hlater].
    destruct (IH Hlater (moment m live)) as [Husers Hanswers].
    rewrite Husers, Hanswers. clear Husers Hanswers IH.
    destruct m as [a|i]; cbn [moment starts_submission starts_initial_search] in *.
    + destruct (start_effect a live) as (waiting & Hflights & Hwaiting & Hmessages).
      rewrite Hflights, Hmessages, length_app, Hwaiting.
      destruct (is_submission a) eqn:Hsub; cbn [length]; [|lia].
      replace (transcript_before a (World.page (Live.world live)))
        with (PageState.messages (World.page (Live.world live)))
        by (destruct a; try reflexivity; discriminate Hm).
      rewrite !messages_of_snoc. cbn [user_message ChatMessage.type]. lia.
    + destruct (nth_error (Live.flights live) i) as [flight|] eqn:Hnth.
      * pose proof (settle_flights i live Hnth) as Hleft.
        unfold settle in *. rewrite Hnth in *. cbn [Live.world Live.flights] in *.
        destruct (resumes_appends_answer flight (Live.world live)) as (answer & -> & Htype).
        rewrite !messages_of_snoc, Htype. cbn [length]. lia.
      * unfold settle. rewrite Hnth. cbn [length]. lia.
Qed.

Lemma play_app (first later : list (Moment (number := number))) live :
  play (first ++ later) live = play later (play first live).
Proof.
  revert live. induction first as [|m first IH]; intros live; [reflexivity | apply IH].
Qed.

(** C5, as the page implements it.  On a freshly mounted page, where the
    initial search of the URL (if any) is the first submission and no
    other initial search follows: once the request of every submission has
    settled, the transcript has exactly [2 N] messages for [N] submissions,
    [N] of the user and [N] of the assistant, whether the submissions
    overlapped or not and however the requests settled; and when every
    submission settles before the next one starts, the transcript is made
    of [N] turns, one user message followed by one assistant message. *)
Theorem transcript_of_submissions :
  (forall uuid_source clock post_script get_script (q : QueryParam)
          (moments : list (Moment (number := number))),
      forallb (fun m => negb (starts_initial_search m)) moments = true ->
      Live.flights
        (play (map Starts (effect_on_q q) ++ moments)
              (Live.idle (mount uuid_source clock post_script get_script))) = [] ->
      let transcript :=
        PageState.messages
          (World.page
             (Live.world
                (play (map Starts (effect_on_q q) ++ moments)
                      (Live.idle (mount uuid_source clock post_script get_script))))) in
      let N := length (effect_on_q (number := number) q)
               + length (filter starts_submission moments) in
      length transcript = 2 * N /\
      length (messages_of user transcript) = N /\
      length (messages_of assistant transcript) = N) /\
  (forall uuid_source clock post_script get_script (q : QueryParam)
          (turns : list (Turn (number := number))),
      turns_of
        (PageState.messages
           (World.page
              (Live.world
                 (play (one_at_a_time (session q turns))
                       (Live.idle (mount uuid_source clock post_script get_script))))))
      = Some (length (session q turns))).
Proof.
  split.
  - intros uuid_source clock post_script get_script q moments Hlater Hsettled.
    cbv zeta.
    set (live0 := play (map Starts (effect_on_q q))
                       (Live.idle (mount uuid_source clock post_script get_script))).
    assert (Hplay : play (map Starts (effect_on_q q) ++ moments)
                         (Live.idle (mount uuid_source clock post_script get_script))
                    = play moments live0) by apply play_app.
    rewrite Hplay in *.
    destruct (play_counts moments Hlater live0) as [Husers Hanswers].
    rewrite Hsettled in Hanswers. cbn [length] in Hanswers.
    assert (Hstart :
      length (messages_of user (PageState.messages (World.page (Live.world live0))))
      = length (effect_on_q (number := number) q) /\
      length (messages_of assistant (PageState.messages (World.page (Live.world live0))))
        + length (Live.flights live0)
      = length (effect_on_q (number := number) q)).
    { subst live0. unfold effect_on_q.
      destruct q as [|value|values]; [| destruct (truthy value) |]; split; reflexivity. }
    destruct Hstart as [Hstart_users Hstart_answers].
    rewrite (messages_of_both (PageState.messages _)). lia.
  - intros uuid_source clock post_script get_script q turns.
    rewrite play_one_at_a_time. cbn [Live.idle Live.world].
    apply (transcript_two_messages_per_turn uuid_source clock post_script get_script q turns).
Qed.

End OverlapProperties.

(** ** The transcript on concrete submissions *)

(** C5 does not hold for every sequence of submissions.  Three submissions
    that all succeed, the third one a new query in the URL: the initial
    search that it runs replaces the transcript, which then has two
    messages, not six.  Two submissions that both succeed, the refinement
    applied while the request of the chat message is pending: the
    transcript has two user messages followed by two assistant messages,
    which are not two turns. *)
Lemma transcript_not_always_two_per_turn :
  length
    (PageState.messages
       (World.page (run second_query_in_url
                        (example_page_load [answers "s1"; answers "s1"; answers "s2"]))))
  <> 2 * length second_query_in_url
  /\
  map (fun m => ChatMessage.type m)
      (PageState.messages
         (World.page
            (Live.world
               (play overlapping_moments
                     (Live.idle (example_page_load [answers "s1"; answers "s1"]))))))
  = [user; user; assistant; assistant]
  /\
  turns_of
    (PageState.messages
       (World.page
          (Live.world
             (play overlapping_moments
                   (Live.idle (example_page_load [answers "s1"; answers "s1"]))))))
  <> Some 2.
Proof.
  split; [|split]; vm_compute; [discriminate | reflexivity | discriminate].
Qed.

Lemma transcript_of_submissions_witness :
  forallb (fun m => negb (starts_initial_search m)) overlapping_moments = true /\
  Live.flights
    (play (map Starts (effect_on_q (Single "headphones")) ++ overlapping_moments ++ [Settles 0])
          (Live.idle (mount example_uuid example_clock
                            [answers "s1"; Rejected server_error; answers "s1"] [])))
  = [] /\
  length
    (PageState.messages
       (World.page
          (Live.world
             (play (map Starts (effect_on_q (Single "headphones"))
                      ++ overlapping_moments ++ [Settles 0])
                   (Live.idle (mount example_uuid example_clock
                                     [answers "s1"; Rejected server_error; answers "s1"] []))))))
  = 2 * 3.
Proof.
  split; [reflexivity|]. split; [vm_compute; reflexivity|].
  exact (proj1 (proj1 (@transcript_of_submissions Z _)
                  example_uuid example_clock
                  [answers "s1"; Rejected server_error; answers "s1"] []
                  (Single "headphones") (overlapping_moments ++ [Settles 0])
                  eq_refl eq_refl)).
Defined.
